(** * The rf2xx radio driver of platform/openlab (radio-rf2xx.c)

    A shallow embedding of the driver's shared state, of its mode
    controller (idle, listen, restart, on, off), of the transmit and receive
    paths and of the interrupt handler, followed by the properties of the
    driver's specification that were checked against it.

    The driver is sequential C code that talks to two things it does not
    own: the transceiver, through the periph/rf2xx.h bus layer, and the
    interrupt controller.  The embedding threads one record through every
    function.  It holds the five static variables of the file and the
    chronological list of the operations issued to the bus layer and to the
    process scheduler.  Values coming back from the hardware are given by an
    oracle that sees everything done so far. *)

From Stdlib Require Import ZArith List Bool Lia.
Import ListNotations.
Local Open Scope Z_scope.

(** ** Data model *)

(** [enum rf2xx_state], in declaration order. *)
Inductive rf2xx_state_t : Type :=
| RF_IDLE
| RF_BUSY
| RF_TX
| RF_TX_DONE
| RF_LISTEN
| RF_RX
| RF_RX_DONE
| RF_RX_READ.

Definition rf2xx_state_eqb (a b : rf2xx_state_t) : bool :=
  match a, b with
  | RF_IDLE, RF_IDLE | RF_BUSY, RF_BUSY | RF_TX, RF_TX
  | RF_TX_DONE, RF_TX_DONE | RF_LISTEN, RF_LISTEN | RF_RX, RF_RX
  | RF_RX_DONE, RF_RX_DONE | RF_RX_READ, RF_RX_READ => true
  | _, _ => false
  end.

(** The return codes of [transmit] and [send] (contiki's radio.h). *)
Inductive radio_tx_t : Type :=
| RADIO_TX_OK
| RADIO_TX_ERR
| RADIO_TX_COLLISION.

(** The registers the modelled functions touch. *)
Inductive rf2xx_reg : Type :=
| RF2XX_REG__IRQ_STATUS
| RF2XX_REG__TRX_CTRL_1
| RF2XX_REG__PHY_RSSI.

(** The transceiver states the driver commands with [rf2xx_set_state]. *)
Inductive rf2xx_trx_state : Type :=
| RF2XX_TRX_STATE__FORCE_PLL_ON
| RF2XX_TRX_STATE__RX_ON
| RF2XX_TRX_STATE__PLL_ON.

(** One constructor per call into the bus layer (and [process_poll]). *)
Inductive effect : Type :=
| IrqEnable
| IrqDisable
| FifoAccessCancel
| SlpTrClear
| SlpTrSet
| SetState (s : rf2xx_trx_state)
| PaEnable
| PaDisable
| RegRead (r : rf2xx_reg)
| RegWrite (r : rf2xx_reg) (v : Z)
| GetStatus
| FifoWriteFirst (v : Z)
| FifoWriteRemainingAsync (data : list Z)
| FifoReadFirst
| FifoReadRemaining (n : Z)
| ProcessPoll.

(** The static variables of radio-rf2xx.c, and the trace of effects,
    oldest first. *)
Record driver : Type := mkDriver {
  rf2xx_state : rf2xx_state_t;
  rf2xx_on : Z;
  cca_pending : Z;
  tx_buf : list Z;
  tx_len : Z;
  trace : list effect
}.

Definition RF2XX_MAX_PAYLOAD : Z := 125.

(** Conversion to [uint8_t]. *)
Definition to_u8 (z : Z) : Z := z mod 256.

Definition set_rf2xx_state (s : rf2xx_state_t) (w : driver) : driver :=
  mkDriver s (rf2xx_on w) (cca_pending w) (tx_buf w) (tx_len w) (trace w).

Definition set_rf2xx_on (v : Z) (w : driver) : driver :=
  mkDriver (rf2xx_state w) v (cca_pending w) (tx_buf w) (tx_len w) (trace w).

Definition set_tx_len (v : Z) (w : driver) : driver :=
  mkDriver (rf2xx_state w) (rf2xx_on w) (cca_pending w) (tx_buf w) v (trace w).

Definition set_tx_buf (b : list Z) (w : driver) : driver :=
  mkDriver (rf2xx_state w) (rf2xx_on w) (cca_pending w) b (tx_len w) (trace w).

Definition emit (e : effect) (w : driver) : driver :=
  mkDriver (rf2xx_state w) (rf2xx_on w) (cca_pending w) (tx_buf w) (tx_len w)
           (trace w ++ [e]).

(** [memcpy(dst, src, n)] on buffers held as lists: the first [n] cells of
    [dst] are replaced by the first [n] cells of [src]. *)
Definition memcpy (dst src : list Z) (n : Z) : list Z :=
  firstn (Z.to_nat n) src ++ skipn (Z.to_nat n) dst.

(** The state [restart] brings the driver to, as a function of the on/off
    flag of [w]. *)
Definition baseline (w : driver) : rf2xx_state_t :=
  if rf2xx_on w =? 0 then RF_IDLE else RF_LISTEN.

(** ** What the driver takes from its platform

    periph/rf2xx.h, sys/rtimer.h and the board description are not part of
    the driver; their constants and the answers of the hardware are
    parameters of the development. *)
Class Platform : Type := {
  (** [rf2xx_has_pa(RF2XX_DEVICE)] *)
  rf2xx_has_pa : bool;
  (** the value the bus returns for a read, after the given trace *)
  bus_read : list effect -> effect -> Z;
  (** the [i]-th byte a [rf2xx_fifo_read_remaining] delivers *)
  fifo_byte : list effect -> nat -> Z;
  (** [RTIMER_NOW()] *)
  rtimer_now : list effect -> Z;
  RF2XX_TRX_CTRL_1_MASK__PA_EXT_EN : Z;
  RF2XX_TRX_STATUS__PLL_ON : Z;
  RF2XX_IRQ_STATUS_MASK__RX_START : Z;
  RF2XX_IRQ_STATUS_MASK__TRX_END : Z;
  RF2XX_PHY_RSSI_MASK__RX_CRC_VALID : Z;
  RTIMER_SECOND : Z;
  (** conversion to [rtimer_clock_t] *)
  to_rtimer_clock : Z -> Z;
  RTIMER_CLOCK_LT : Z -> Z -> bool
}.

(** What can run while [transmit] spins on [rf2xx_state]: the interrupt
    handler, and the rtimer tasks that call [on] and [off]. *)
Inductive env_event : Type :=
| EvIrq
| EvOn
| EvOff.

(** Outcome of the wait for PLL_ON. *)
Inductive pll_verdict : Type :=
| PllReady
| PllTimeout.

Section Driver.

Context {P : Platform}.

(** ** Bus layer *)

Definition rf2xx_reg_read (r : rf2xx_reg) (w : driver) : Z * driver :=
  (to_u8 (bus_read (trace w) (RegRead r)), emit (RegRead r) w).

Definition rf2xx_reg_write (r : rf2xx_reg) (v : Z) (w : driver) : driver :=
  emit (RegWrite r v) w.

Definition rf2xx_get_status (w : driver) : Z * driver :=
  (to_u8 (bus_read (trace w) GetStatus), emit GetStatus w).

Definition rf2xx_fifo_read_first (w : driver) : Z * driver :=
  (to_u8 (bus_read (trace w) FifoReadFirst), emit FifoReadFirst w).

Definition fifo_bytes (t : list effect) (n : Z) : list Z :=
  map (fun i => to_u8 (fifo_byte t i)) (seq 0 (Z.to_nat n)).

Definition rf2xx_fifo_read_remaining (buf : list Z) (n : Z) (w : driver)
  : list Z * driver :=
  (memcpy buf (fifo_bytes (trace w) n) n, emit (FifoReadRemaining n) w).

(** ** Mode controller *)

Definition idle (w : driver) : driver :=
  (* Disable the interrupts *)
  let w := emit IrqDisable w in
  (* Cancel any ongoing transfer *)
  let w := emit FifoAccessCancel w in
  (* Clear slp/tr *)
  let w := emit SlpTrClear w in
  (* Force IDLE *)
  let w := emit (SetState RF2XX_TRX_STATE__FORCE_PLL_ON) w in
  if rf2xx_has_pa then
    let w := emit PaDisable w in
    let '(reg, w) := rf2xx_reg_read RF2XX_REG__TRX_CTRL_1 w in
    let reg := to_u8 (Z.land reg (Z.lnot RF2XX_TRX_CTRL_1_MASK__PA_EXT_EN)) in
    rf2xx_reg_write RF2XX_REG__TRX_CTRL_1 reg w
  else w.

(** The part of [listen] and of [transmit] that enables the external
    power amplifier. *)
Definition pa_ext_enable (w : driver) : driver :=
  if rf2xx_has_pa then
    let w := emit PaEnable w in
    let '(reg, w) := rf2xx_reg_read RF2XX_REG__TRX_CTRL_1 w in
    let reg := to_u8 (Z.lor reg RF2XX_TRX_CTRL_1_MASK__PA_EXT_EN) in
    rf2xx_reg_write RF2XX_REG__TRX_CTRL_1 reg w
  else w.

Definition listen (w : driver) : driver :=
  (* Read IRQ to clear it *)
  let '(_, w) := rf2xx_reg_read RF2XX_REG__IRQ_STATUS w in
  let w := pa_ext_enable w in
  (* Enable IRQ interrupt *)
  let w := emit IrqEnable w in
  (* Start RX, in a critical section *)
  let w := set_rf2xx_state RF_LISTEN w in
  emit (SetState RF2XX_TRX_STATE__RX_ON) w.

Definition restart (w : driver) : driver :=
  let w := idle w in
  if negb (rf2xx_on w =? 0) then listen w
  else set_rf2xx_state RF_IDLE w.

(** The critical section of [rf2xx_wr_on]; the boolean is the local
    [flag].  The statement [rf2xx_state == RF_BUSY;] of the source is a
    comparison whose value is dropped. *)
Definition rf2xx_wr_on_critical (w : driver) : bool * driver :=
  if rf2xx_on w =? 0 then
    let w := set_rf2xx_on 1 w in
    if rf2xx_state_eqb (rf2xx_state w) RF_IDLE then
      let _ := rf2xx_state_eqb (rf2xx_state w) RF_BUSY in
      (true, w)
    else (false, w)
  else (false, w).

Definition rf2xx_wr_on (w : driver) : Z * driver :=
  let '(flag, w) := rf2xx_wr_on_critical w in
  let w := if flag then listen w else w in
  (1, w).

(** The critical section of [rf2xx_wr_off]. *)
Definition rf2xx_wr_off_critical (w : driver) : bool * driver :=
  if negb (rf2xx_on w =? 0) then
    let w := set_rf2xx_on 0 w in
    if rf2xx_state_eqb (rf2xx_state w) RF_LISTEN then
      (true, set_rf2xx_state RF_BUSY w)
    else (false, w)
  else (false, w).

Definition rf2xx_wr_off (w : driver) : Z * driver :=
  let '(flag, w) := rf2xx_wr_off_critical w in
  let w := if flag then set_rf2xx_state RF_IDLE (idle w) else w in
  (1, w).

(** ** Interrupt handler *)

(** The receive-start test; [state] is the handler's local copy. *)
Definition irq_rx_start (reg : Z) (state : rf2xx_state_t) (w : driver)
  : rf2xx_state_t * driver :=
  if negb (Z.land reg RF2XX_IRQ_STATUS_MASK__RX_START =? 0)
     && rf2xx_state_eqb state RF_LISTEN
  then (RF_RX, set_rf2xx_state RF_RX w)
  else (state, w).

(** The rx/tx end test. *)
Definition irq_trx_end (reg : Z) (state : rf2xx_state_t) (w : driver)
  : driver :=
  if negb (Z.land reg RF2XX_IRQ_STATUS_MASK__TRX_END =? 0) then
    match state with
    | RF_TX => set_rf2xx_state RF_TX_DONE w
    | RF_RX | RF_LISTEN =>
        let w := set_rf2xx_state RF_RX_DONE w in
        (* we do not want to start a 2nd RX *)
        let w := emit (SetState RF2XX_TRX_STATE__PLL_ON) w in
        emit ProcessPoll w
    | _ => w
    end
  else w.

Definition irq_handler (w : driver) : driver :=
  let state := rf2xx_state w in
  match state with
  | RF_TX | RF_LISTEN | RF_RX =>
      let '(reg, w) := rf2xx_reg_read RF2XX_REG__IRQ_STATUS w in
      let '(state, w) := irq_rx_start reg state w in
      irq_trx_end reg state w
  | _ => w
  end.

(** ** Transmit path *)

(** The two results: 1 on a payload that is too big, 0 otherwise. *)
Definition rf2xx_wr_prepare (payload : list Z) (payload_len : Z) (w : driver)
  : Z * driver :=
  if payload_len >? RF2XX_MAX_PAYLOAD then
    (1, set_tx_len 0 w)
  else
    let w := set_tx_len (to_u8 payload_len) w in
    let w := set_tx_buf (memcpy (tx_buf w) payload (tx_len w)) w in
    (0, w).

(** The do-while loop that waits for PLL_ON.  Each iteration reads the
    status, then the clock; [fuel] bounds the number of iterations, and
    [None] stands for a loop still running after [fuel] of them. *)
Fixpoint pll_wait (fuel : nat) (time : Z) (w : driver)
  : option (pll_verdict * driver) :=
  match fuel with
  | O => None
  | S fuel' =>
      let '(reg, w) := rf2xx_get_status w in
      (* Check for block *)
      if RTIMER_CLOCK_LT time (rtimer_now (trace w)) then
        Some (PllTimeout, w)
      else if reg =? RF2XX_TRX_STATUS__PLL_ON then Some (PllReady, w)
      else pll_wait fuel' time w
  end.

Definition run_event (e : env_event) (w : driver) : driver :=
  match e with
  | EvIrq => irq_handler w
  | EvOn => snd (rf2xx_wr_on w)
  | EvOff => snd (rf2xx_wr_off w)
  end.

Definition run_events (sched : list env_event) (w : driver) : driver :=
  fold_left (fun w e => run_event e w) sched w.

(** [while (rf2xx_state == RF_TX) ;] : the loop body is empty, so the
    state only moves by what runs between two tests.  [sched] lists those
    events in order; [None] stands for a loop that still spins when the
    schedule has been used up. *)
Fixpoint wait_tx_end (sched : list env_event) (w : driver) : option driver :=
  if rf2xx_state_eqb (rf2xx_state w) RF_TX then
    match sched with
    | [] => None
    | e :: sched' => wait_tx_end sched' (run_event e w)
    end
  else Some w.

(** From the exit of the critical section to the start of the PLL wait:
    the driver after these steps, and the deadline [time]. *)
Definition tx_enter (flag : bool) (w : driver) : Z * driver :=
  let w := if flag then idle w else w in
  (* Read IRQ to clear it *)
  let '(_, w) := rf2xx_reg_read RF2XX_REG__IRQ_STATUS w in
  (* If radio has external PA, enable DIG3/4 *)
  let w := pa_ext_enable w in
  let time :=
    to_rtimer_clock (rtimer_now (trace w) + Z.quot RTIMER_SECOND 1000) in
  (time, w).

(** From the end of the PLL wait to the start of the wait for the end of
    the packet. *)
Definition tx_start (w : driver) : driver :=
  (* Enable IRQ interrupt *)
  let w := emit IrqEnable w in
  (* Copy the packet to the radio FIFO *)
  let w := emit (FifoWriteFirst (tx_len w + 2)) w in
  let w :=
    emit (FifoWriteRemainingAsync (firstn (Z.to_nat (tx_len w)) (tx_buf w))) w
  in
  (* Start TX *)
  emit SlpTrSet w.

Definition tx_result (w : driver) : radio_tx_t :=
  if rf2xx_state_eqb (rf2xx_state w) RF_TX_DONE then RADIO_TX_OK
  else RADIO_TX_ERR.

(** [rf2xx_wr_transmit] after the state check; [flag] tells that the
    state was RF_LISTEN.  The log calls, and the LED calls compiled in
    under RF2XX_LEDS_ON, touch neither the driver nor the chip and are
    left out, here and in [read]. *)
Definition tx_run (fuel : nat) (sched : list env_event) (flag : bool)
  (w : driver) : option (radio_tx_t * driver) :=
  let '(time, w) := tx_enter flag w in
  match pll_wait fuel time w with
  | None => None
  | Some (PllTimeout, w) => Some (RADIO_TX_ERR, restart w)
  | Some (PllReady, w) =>
      match wait_tx_end sched (tx_start w) with
      | None => None
      | Some w => Some (tx_result w, restart w)
      end
  end.

Definition rf2xx_wr_transmit (fuel : nat) (sched : list env_event)
  (transmit_len : Z) (w : driver) : option (radio_tx_t * driver) :=
  if negb (tx_len w =? transmit_len) then Some (RADIO_TX_ERR, w)
  else
    (* Check state *)
    match rf2xx_state w with
    | RF_LISTEN => tx_run fuel sched true (set_rf2xx_state RF_TX w)
    | RF_IDLE => tx_run fuel sched false (set_rf2xx_state RF_TX w)
    | _ => Some (RADIO_TX_COLLISION, w)
    end.

Definition rf2xx_wr_send (fuel : nat) (sched : list env_event)
  (payload : list Z) (payload_len : Z) (w : driver)
  : option (radio_tx_t * driver) :=
  let '(r, w) := rf2xx_wr_prepare payload payload_len w in
  if negb (r =? 0) then Some (RADIO_TX_ERR, w)
  else rf2xx_wr_transmit fuel sched payload_len w.

(** ** Receive path *)

(** The frame drain: the returned length, the caller's buffer, the
    driver. *)
Definition read (buf : list Z) (buf_len : Z) (w : driver)
  : Z * list Z * driver :=
  (* Check the CRC is good *)
  let '(rssi, w) := rf2xx_reg_read RF2XX_REG__PHY_RSSI w in
  if Z.land rssi RF2XX_PHY_RSSI_MASK__RX_CRC_VALID =? 0 then (0, buf, w)
  else
    (* Get payload length *)
    let '(first, w) := rf2xx_fifo_read_first w in
    let len := to_u8 (first - 2) in
    (* Check valid length *)
    if len >? buf_len then
      (* Error length, end transfer *)
      let '(buf, w) := rf2xx_fifo_read_remaining buf 0 w in
      (0, buf, w)
    else
      (* Read payload *)
      let '(buf, w) := rf2xx_fifo_read_remaining buf len w in
      (len, buf, w).

(** The public read; its [unsigned short buf_len] is converted to the
    [uint8_t] parameter of [read]. *)
Definition rf2xx_wr_read (buf : list Z) (buf_len : Z) (w : driver)
  : Z * list Z * driver :=
  (* Is there a packet pending *)
  if negb (rf2xx_state_eqb (rf2xx_state w) RF_RX_DONE) then (0, buf, w)
  else
    let w := set_rf2xx_state RF_RX_READ w in
    (* Get the packet *)
    let '(len, buf, w) := read buf (to_u8 buf_len) w in
    (len, buf, restart w).

Definition rf2xx_wr_receiving_packet (w : driver) : Z :=
  if rf2xx_state_eqb (rf2xx_state w) RF_RX then 1 else 0.

Definition rf2xx_wr_pending_packet (w : driver) : Z :=
  if rf2xx_state_eqb (rf2xx_state w) RF_RX_DONE then 1 else 0.

End Driver.

(** ** A concrete platform

    An AT86RF231 board without external amplifier: the masks are those of
    the data sheet, the clock is a 16-bit counter that advances by one at
    every bus operation, the status register always reads PLL_ON, the
    interrupt latch always reports transfer-end, the CRC is always valid and
    the FIFO holds a frame of five bytes 10, 11, 12 (payload) and two
    trailer bytes. *)
Definition board : Platform := {|
  rf2xx_has_pa := false;
  bus_read := fun _ e =>
    match e with
    | GetStatus => 0x09
    | RegRead RF2XX_REG__IRQ_STATUS => 0x08
    | RegRead RF2XX_REG__PHY_RSSI => 0x80
    | FifoReadFirst => 5
    | _ => 0
    end;
  fifo_byte := fun _ i => 10 + Z.of_nat i;
  rtimer_now := fun t => Z.of_nat (length t);
  RF2XX_TRX_CTRL_1_MASK__PA_EXT_EN := 0x80;
  RF2XX_TRX_STATUS__PLL_ON := 0x09;
  RF2XX_IRQ_STATUS_MASK__RX_START := 0x04;
  RF2XX_IRQ_STATUS_MASK__TRX_END := 0x08;
  RF2XX_PHY_RSSI_MASK__RX_CRC_VALID := 0x80;
  RTIMER_SECOND := 32768;
  to_rtimer_clock := fun z => z mod 65536;
  RTIMER_CLOCK_LT := fun a b => (a - b + 32768) mod 65536 - 32768 <? 0
|}.

(** The same board with an external amplifier and a chip that never
    reaches PLL_ON. *)
Definition stuck_board : Platform := {|
  rf2xx_has_pa := true;
  bus_read := fun _ e =>
    match e with
    | RegRead RF2XX_REG__IRQ_STATUS => 0x04
    | FifoReadFirst => 1
    | RegRead RF2XX_REG__PHY_RSSI => 0x80
    | _ => 0
    end;
  fifo_byte := fun _ i => Z.of_nat i;
  rtimer_now := fun t => 17 * Z.of_nat (length t);
  RF2XX_TRX_CTRL_1_MASK__PA_EXT_EN := 0x80;
  RF2XX_TRX_STATUS__PLL_ON := 0x09;
  RF2XX_IRQ_STATUS_MASK__RX_START := 0x04;
  RF2XX_IRQ_STATUS_MASK__TRX_END := 0x08;
  RF2XX_PHY_RSSI_MASK__RX_CRC_VALID := 0x80;
  RTIMER_SECOND := 32768;
  to_rtimer_clock := fun z => z mod 65536;
  RTIMER_CLOCK_LT := fun a b => (a - b + 32768) mod 65536 - 32768 <? 0
|}.

(** The driver as [rf2xx_wr_init] leaves its variables, with an empty
    trace and a zeroed transmit buffer. *)
Definition init_driver : driver :=
  mkDriver RF_IDLE 0 0 (repeat 0 125) 0 [].

(** The radio turned on and armed, a frame of three bytes prepared. *)
Definition listening_driver : driver :=
  mkDriver RF_LISTEN 1 0 ([7; 8; 9] ++ repeat 0 122) 3 [].

(** The same in the middle of a transmission. *)
Definition transmitting_driver : driver :=
  mkDriver RF_TX 1 0 ([7; 8; 9] ++ repeat 0 122) 3 [].

(** A frame has been received and waits to be read. *)
Definition rx_done_driver : driver :=
  mkDriver RF_RX_DONE 1 0 (repeat 0 125) 0 [].

(** What is observed of a [transmit]: the code returned, and the state
    and the flag it leaves. *)
Definition tx_outcome (r : option (radio_tx_t * driver))
  : option (radio_tx_t * rf2xx_state_t * Z) :=
  match r with
  | Some (ret, w) => Some (ret, rf2xx_state w, rf2xx_on w)
  | None => None
  end.


(** ** The worker process, carrier sense and initialisation

    The rest of radio-rf2xx.c.  These functions also call the packet
    buffer and the RDC layer, and write registers that the functions above
    never touch; such calls are returned, in order, by the function that
    makes them. *)

(** Calls of [rf2xx_process] into the upper layers. *)
Inductive upper_call : Type :=
| PacketbufClear
| PacketbufSetDatalen (len : Z)
| NetstackRdcInput.

(** Bus operations of [rf2xx_wr_channel_clear]. *)
Inductive cca_op : Type :=
| PhyCcCcaWrite (v : Z)
| TrxStatusRead.

(** The registers only [reset] writes. *)
Inductive rf2xx_config_reg : Type :=
| RF2XX_REG__TRX_CTRL_2
| RF2XX_REG__PHY_TX_PWR
| RF2XX_REG__TRX_CTRL_0
| RF2XX_REG__XOSC_CTRL
| RF2XX_REG__PHY_CC_CCA
| RF2XX_REG__IRQ_MASK.

(** Everything [rf2xx_wr_init] does outside the driver's variables. *)
Inductive init_op : Type :=
| Chip (e : effect)
| IrqConfigure
| Dig2Disable
| ChipReset
| ConfigWrite (r : rf2xx_config_reg) (v : Z)
| ProcessStart.

(** Further constants of periph/rf2xx.h and of the packet buffer, and
    the answers of TRX_STATUS during a clear-channel assessment. *)
Class PlatformRest : Type := {
  rf2xx_has_dig2 : bool;
  RF2XX_CHANNEL : Z;
  PACKETBUF_SIZE : Z;
  PACKETBUF_HDR_SIZE : Z;
  (** the value of the [n]-th read of TRX_STATUS of a call, after the
      given trace *)
  trx_status_read : list effect -> nat -> Z;
  RF2XX_PHY_CC_CCA_DEFAULT__CCA_MODE : Z;
  RF2XX_PHY_CC_CCA_MASK__CHANNEL : Z;
  RF2XX_PHY_CC_CCA_MASK__CCA_REQUEST : Z;
  RF2XX_TRX_STATUS_MASK__CCA_DONE : Z;
  RF2XX_TRX_STATUS_MASK__CCA_STATUS : Z;
  RF2XX_TRX_CTRL_2_MASK__RX_SAFE_MODE : Z;
  RF2XX_PHY_TX_PWR_DEFAULT__PA_BUF_LT : Z;
  RF2XX_PHY_TX_PWR_DEFAULT__PA_LT : Z;
  RF2XX_PHY_TX_PWR_TX_PWR_VALUE__3dBm : Z;
  RF2XX_TRX_CTRL_0_DEFAULT__PAD_IO : Z;
  RF2XX_TRX_CTRL_0_DEFAULT__PAD_IO_CLKM : Z;
  RF2XX_TRX_CTRL_0_DEFAULT__CLKM_SHA_SEL : Z;
  RF2XX_TRX_CTRL_0_CLKM_CTRL__OFF : Z;
  RF2XX_XOSC_CTRL__XTAL_MODE_CRYSTAL : Z
}.

Section DriverRest.

Context {P : Platform} {R : PlatformRest}.

(** One wake-up of [rf2xx_process] by a poll event: the body of its
    loop after PROCESS_YIELD_UNTIL.  [pb] is the data area of the packet
    buffer, the one [packetbuf_dataptr()] points to. *)
Definition rf2xx_process_poll (pb : list Z) (w : driver)
  : list upper_call * list Z * driver :=
  if rf2xx_state_eqb (rf2xx_state w) RF_RX_DONE then
    (* the process will do the read *)
    let w := set_rf2xx_state RF_RX_READ w in
    (* get data *)
    let '(len, pb, w) :=
      read pb (to_u8 (PACKETBUF_SIZE - PACKETBUF_HDR_SIZE)) w in
    let w := restart w in
    (* eventually call upper layer *)
    if len >? 0 then
      ([PacketbufClear; PacketbufSetDatalen len; NetstackRdcInput], pb, w)
    else ([PacketbufClear], pb, w)
  else ([], pb, w).

(** The do-while loop of [rf2xx_wr_channel_clear].  Each iteration reads
    TRX_STATUS in a critical section; what runs between that read and the
    test of the loop condition is the head of [sched] ([None] when nothing
    runs).  The result is the last value read, the number of reads and the
    driver; [None] stands for a loop still running when the schedule has
    been used up. *)
Fixpoint cca_wait (sched : list (option env_event)) (reads : nat)
  (w : driver) : option (Z * nat * driver) :=
  match sched with
  | [] => None
  | ev :: sched' =>
      let reg := to_u8 (trx_status_read (trace w) reads) in
      let w := match ev with Some e => run_event e w | None => w end in
      if rf2xx_state_eqb (rf2xx_state w) RF_LISTEN
         && (Z.land reg RF2XX_TRX_STATUS_MASK__CCA_DONE =? 0)
      then cca_wait sched' (S reads) w
      else Some (reg, S reads, w)
  end.

(** The driver after the events of a schedule of this kind. *)
Definition run_opt_events (sched : list (option env_event)) (w : driver)
  : driver :=
  fold_left
    (fun w ev => match ev with Some e => run_event e w | None => w end)
    sched w.

Definition rf2xx_wr_channel_clear (sched : list (option env_event))
  (w : driver) : option (Z * list cca_op * driver) :=
  match rf2xx_state w with
  | RF_LISTEN =>
      (* initiate a cca request *)
      let req :=
        to_u8 (Z.lor (Z.lor RF2XX_PHY_CC_CCA_DEFAULT__CCA_MODE
                        (Z.land RF2XX_CHANNEL RF2XX_PHY_CC_CCA_MASK__CHANNEL))
                 RF2XX_PHY_CC_CCA_MASK__CCA_REQUEST) in
      (* wait cca to be done *)
      match cca_wait sched 0 w with
      | None => None
      | Some (reg, n, w) =>
          (* get result *)
          let clear :=
            if Z.land reg RF2XX_TRX_STATUS_MASK__CCA_STATUS =? 0 then 0
            else 1 in
          Some (clear, PhyCcCcaWrite req :: repeat TrxStatusRead n, w)
      end
  | RF_RX => Some (0, [], w)
  | _ => Some (1, [], w)
  end.

(** [reset]: the operations it issues, in order.  Those that are
    [effect]s also go to the trace of the driver. *)
Definition reset (w : driver) : list init_op * driver :=
  (* Stop any Asynchronous access *)
  let w := emit FifoAccessCancel w in
  (* Configure the radio interrupts *)
  let w := emit IrqDisable w in
  (* Reset the SLP_TR output *)
  let w := emit SlpTrClear w in
  ([Chip FifoAccessCancel; Chip IrqDisable; IrqConfigure]
   ++ (if rf2xx_has_dig2 then [Dig2Disable] else [])
   ++ [Chip SlpTrClear;
       (* Reset the radio chip *)
       ChipReset;
       (* Enable Dynamic Frame Buffer Protection, standard data rate *)
       ConfigWrite RF2XX_REG__TRX_CTRL_2
         (to_u8 RF2XX_TRX_CTRL_2_MASK__RX_SAFE_MODE);
       (* Set max TX power *)
       ConfigWrite RF2XX_REG__PHY_TX_PWR
         (to_u8 (Z.lor (Z.lor RF2XX_PHY_TX_PWR_DEFAULT__PA_BUF_LT
                          RF2XX_PHY_TX_PWR_DEFAULT__PA_LT)
                   RF2XX_PHY_TX_PWR_TX_PWR_VALUE__3dBm));
       (* Disable CLKM signal *)
       ConfigWrite RF2XX_REG__TRX_CTRL_0
         (to_u8 (Z.lor (Z.lor (Z.lor RF2XX_TRX_CTRL_0_DEFAULT__PAD_IO
                                 RF2XX_TRX_CTRL_0_DEFAULT__PAD_IO_CLKM)
                          RF2XX_TRX_CTRL_0_DEFAULT__CLKM_SHA_SEL)
                   RF2XX_TRX_CTRL_0_CLKM_CTRL__OFF));
       (* Set XCLK TRIM *)
       ConfigWrite RF2XX_REG__XOSC_CTRL
         (to_u8 (Z.lor RF2XX_XOSC_CTRL__XTAL_MODE_CRYSTAL 0));
       (* Set channel *)
       ConfigWrite RF2XX_REG__PHY_CC_CCA
         (to_u8 (Z.lor RF2XX_PHY_CC_CCA_DEFAULT__CCA_MODE
                   (Z.land RF2XX_CHANNEL RF2XX_PHY_CC_CCA_MASK__CHANNEL)));
       (* Set IRQ to TRX END/RX_START *)
       ConfigWrite RF2XX_REG__IRQ_MASK
         (to_u8 (Z.lor RF2XX_IRQ_STATUS_MASK__TRX_END
                   RF2XX_IRQ_STATUS_MASK__RX_START))],
   w).

Definition rf2xx_wr_init (w : driver) : Z * list init_op * driver :=
  let w := mkDriver RF_IDLE 0 0 (tx_buf w) 0 (trace w) in
  let '(ops, w) := reset w in
  let w' := idle w in
  (1,
   ops ++ map Chip (skipn (length (trace w)) (trace w')) ++ [ProcessStart],
   w').

End DriverRest.

(** ** The node address (openlab-fox/openlab-main.c) *)

(** [a[i] = v] on an array held as a list; nothing happens out of
    range. *)
Fixpoint store (a : list Z) (i : nat) (v : Z) : list Z :=
  match a, i with
  | [], _ => []
  | _ :: t, O => v :: t
  | h :: t, S k => h :: store t k v
  end.

(** [set_rime_addr]: [uid8] is the 12-byte identifier of the processor,
    [addr] the 8 bytes of [rimeaddr_node_addr]. *)
Definition set_rime_addr (uid8 : list Z) (addr : list Z) : list Z :=
  (* Company 3 Bytes *)
  let addr := store addr 0 0x01 in
  let addr := store addr 1 0x23 in
  let addr := store addr 2 0x45 in
  (* Platform identifier *)
  let addr := store addr 3 0x00 in
  (* Generate 4 remaining bytes using uid of processor *)
  fold_left (fun a i => store a (i + 4) (nth (i + 6) uid8 0)) (seq 0 4) addr.

(** The constants of the AT86RF231 data sheet and of contiki's packet
    buffer, for [board]; the assessment is done at the third read of
    TRX_STATUS and finds the channel clear. *)
Definition board_rest : PlatformRest := {|
  rf2xx_has_dig2 := false;
  RF2XX_CHANNEL := 11;
  PACKETBUF_SIZE := 128;
  PACKETBUF_HDR_SIZE := 48;
  trx_status_read := fun _ n => if Nat.leb 2 n then 0xC6 else 0x06;
  RF2XX_PHY_CC_CCA_DEFAULT__CCA_MODE := 0x20;
  RF2XX_PHY_CC_CCA_MASK__CHANNEL := 0x1F;
  RF2XX_PHY_CC_CCA_MASK__CCA_REQUEST := 0x80;
  RF2XX_TRX_STATUS_MASK__CCA_DONE := 0x80;
  RF2XX_TRX_STATUS_MASK__CCA_STATUS := 0x40;
  RF2XX_TRX_CTRL_2_MASK__RX_SAFE_MODE := 0x80;
  RF2XX_PHY_TX_PWR_DEFAULT__PA_BUF_LT := 0xC0;
  RF2XX_PHY_TX_PWR_DEFAULT__PA_LT := 0x00;
  RF2XX_PHY_TX_PWR_TX_PWR_VALUE__3dBm := 0x00;
  RF2XX_TRX_CTRL_0_DEFAULT__PAD_IO := 0x00;
  RF2XX_TRX_CTRL_0_DEFAULT__PAD_IO_CLKM := 0x10;
  RF2XX_TRX_CTRL_0_DEFAULT__CLKM_SHA_SEL := 0x08;
  RF2XX_TRX_CTRL_0_CLKM_CTRL__OFF := 0x00;
  RF2XX_XOSC_CTRL__XTAL_MODE_CRYSTAL := 0xF0
|}.

(** A driver in the middle of a reception. *)
Definition receiving_driver : driver :=
  mkDriver RF_RX 1 0 (repeat 0 125) 0 [].

(** ** Vocabulary of the further properties *)

(** The driver is at rest: its state is the baseline of its flag. *)
Definition quiescent (w : driver) : Prop :=
  rf2xx_state w = baseline w.

(** The moves of [rf2xx_state] an interrupt may make. *)
Definition irq_step (s s' : rf2xx_state_t) : bool :=
  match s, s' with
  | RF_TX, RF_TX_DONE
  | RF_LISTEN, RF_RX
  | RF_LISTEN, RF_RX_DONE
  | RF_RX, RF_RX_DONE => true
  | _, _ => rf2xx_state_eqb s s'
  end.

(** Number of effects of a trace that satisfy [p]. *)
Definition count_eff (p : effect -> bool) (t : list effect) : nat :=
  length (filter p t).

Definition is_slp_tr_set (e : effect) : bool :=
  match e with SlpTrSet => true | _ => false end.

Definition is_fifo_write (e : effect) : bool :=
  match e with
  | FifoWriteFirst _ | FifoWriteRemainingAsync _ => true
  | _ => false
  end.

Definition is_fifo_read (e : effect) : bool :=
  match e with
  | FifoReadFirst | FifoReadRemaining _ => true
  | _ => false
  end.

Definition is_process_poll (e : effect) : bool :=
  match e with ProcessPoll => true | _ => false end.

(** The effects [idle], [listen] and [restart] can issue. *)
Definition mode_effect (e : effect) : bool :=
  match e with
  | IrqEnable | IrqDisable | FifoAccessCancel | SlpTrClear
  | SetState RF2XX_TRX_STATE__FORCE_PLL_ON
  | SetState RF2XX_TRX_STATE__RX_ON
  | PaEnable | PaDisable
  | RegRead RF2XX_REG__TRX_CTRL_1 | RegRead RF2XX_REG__IRQ_STATUS
  | RegWrite RF2XX_REG__TRX_CTRL_1 _ => true
  | _ => false
  end.

(** [p] holds of no effect of the mode controller. *)
Definition mode_silent (p : effect -> bool) : Prop :=
  forall e, mode_effect e = true -> p e = false.

(** The driver a returned [transmit] or [send] leaves. *)
Definition tx_final (r : option (radio_tx_t * driver)) : driver :=
  match r with
  | Some (_, w) => w
  | None => init_driver
  end.

(** [board] with an interrupt latch that reports receive-start at the
    first bus operation and transfer-end afterwards. *)
Definition rx_board : Platform := {|
  rf2xx_has_pa := false;
  bus_read := fun t e =>
    match e with
    | GetStatus => 0x09
    | RegRead RF2XX_REG__IRQ_STATUS =>
        match t with [] => 0x04 | _ => 0x08 end
    | RegRead RF2XX_REG__PHY_RSSI => 0x80
    | FifoReadFirst => 5
    | _ => 0
    end;
  fifo_byte := fun _ i => 10 + Z.of_nat i;
  rtimer_now := fun t => Z.of_nat (length t);
  RF2XX_TRX_CTRL_1_MASK__PA_EXT_EN := 0x80;
  RF2XX_TRX_STATUS__PLL_ON := 0x09;
  RF2XX_IRQ_STATUS_MASK__RX_START := 0x04;
  RF2XX_IRQ_STATUS_MASK__TRX_END := 0x08;
  RF2XX_PHY_RSSI_MASK__RX_CRC_VALID := 0x80;
  RTIMER_SECOND := 32768;
  to_rtimer_clock := fun z => z mod 65536;
  RTIMER_CLOCK_LT := fun a b => (a - b + 32768) mod 65536 - 32768 <? 0
|}.

(** [board] with a completion interrupt that is lost: the chip reaches
    PLL_ON, but the interrupt latch never reports anything. *)
Definition deaf_board : Platform := {|
  rf2xx_has_pa := false;
  bus_read := fun _ e =>
    match e with
    | GetStatus => 0x09
    | RegRead RF2XX_REG__PHY_RSSI => 0x80
    | FifoReadFirst => 5
    | _ => 0
    end;
  fifo_byte := fun _ i => 10 + Z.of_nat i;
  rtimer_now := fun t => Z.of_nat (length t);
  RF2XX_TRX_CTRL_1_MASK__PA_EXT_EN := 0x80;
  RF2XX_TRX_STATUS__PLL_ON := 0x09;
  RF2XX_IRQ_STATUS_MASK__RX_START := 0x04;
  RF2XX_IRQ_STATUS_MASK__TRX_END := 0x08;
  RF2XX_PHY_RSSI_MASK__RX_CRC_VALID := 0x80;
  RTIMER_SECOND := 32768;
  to_rtimer_clock := fun z => z mod 65536;
  RTIMER_CLOCK_LT := fun a b => (a - b + 32768) mod 65536 - 32768 <? 0
|}.

(** * Properties *)

Section Properties.

Context {P : Platform}.

(** ** Helper lemmas *)

Lemma rf2xx_state_eqb_eq (a b : rf2xx_state_t) :
  rf2xx_state_eqb a b = true <-> a = b.
Proof.
  split.
  - destruct a, b; simpl; intro H; try reflexivity; discriminate H.
  - intros ->. destruct b; reflexivity.
Qed.

Lemma rf2xx_state_eqb_refl (a : rf2xx_state_t) : rf2xx_state_eqb a a = true.
Proof. apply rf2xx_state_eqb_eq. reflexivity. Qed.

(** [idle] only talks to the chip. *)
Lemma idle_frame (w : driver) :
  rf2xx_state (idle w) = rf2xx_state w /\
  rf2xx_on (idle w) = rf2xx_on w /\
  tx_buf (idle w) = tx_buf w /\
  tx_len (idle w) = tx_len w.
Proof.
  unfold idle. destruct rf2xx_has_pa; simpl; repeat split; reflexivity.
Qed.

Lemma pa_ext_enable_frame (w : driver) :
  rf2xx_state (pa_ext_enable w) = rf2xx_state w /\
  rf2xx_on (pa_ext_enable w) = rf2xx_on w /\
  tx_buf (pa_ext_enable w) = tx_buf w /\
  tx_len (pa_ext_enable w) = tx_len w.
Proof.
  unfold pa_ext_enable. destruct rf2xx_has_pa; simpl; repeat split; reflexivity.
Qed.

(** [listen] ends in RF_LISTEN and keeps the flag and the transmit
    buffer. *)
Lemma listen_frame (w : driver) :
  rf2xx_state (listen w) = RF_LISTEN /\
  rf2xx_on (listen w) = rf2xx_on w /\
  tx_buf (listen w) = tx_buf w /\
  tx_len (listen w) = tx_len w.
Proof.
  unfold listen. simpl.
  destruct (pa_ext_enable_frame (emit (RegRead RF2XX_REG__IRQ_STATUS) w))
    as (_ & Hon & Hbuf & Hlen).
  repeat split; assumption.
Qed.

Lemma restart_frame (w : driver) :
  rf2xx_on (restart w) = rf2xx_on w /\
  tx_buf (restart w) = tx_buf w /\
  tx_len (restart w) = tx_len w.
Proof.
  unfold restart.
  destruct (idle_frame w) as (_ & Hon & Hbuf & Hlen).
  destruct (negb (rf2xx_on (idle w) =? 0)).
  - destruct (listen_frame (idle w)) as (_ & Hon' & Hbuf' & Hlen').
    repeat split; congruence.
  - simpl. repeat split; assumption.
Qed.

(** [restart] always lands on the baseline of the flag. *)
Lemma restart_baseline (w : driver) :
  rf2xx_state (restart w) = baseline (restart w).
Proof.
  unfold baseline.
  destruct (restart_frame w) as (Hon & _). rewrite Hon.
  unfold restart.
  destruct (idle_frame w) as (_ & Hion & _). rewrite Hion.
  destruct (rf2xx_on w =? 0); simpl; reflexivity.
Qed.

Lemma restart_off (w : driver) :
  rf2xx_on w = 0 -> rf2xx_state (restart w) = RF_IDLE.
Proof.
  intro H. rewrite restart_baseline. unfold baseline.
  destruct (restart_frame w) as (Hon & _). rewrite Hon, H. reflexivity.
Qed.

Lemma restart_on (w : driver) :
  rf2xx_on w <> 0 -> rf2xx_state (restart w) = RF_LISTEN.
Proof.
  intro H. rewrite restart_baseline. unfold baseline.
  destruct (restart_frame w) as (Hon & _). rewrite Hon.
  destruct (Z.eqb_spec (rf2xx_on w) 0); [contradiction | reflexivity].
Qed.

Lemma irq_handler_on (w : driver) :
  rf2xx_on (irq_handler w) = rf2xx_on w.
Proof.
  unfold irq_handler, irq_rx_start, irq_trx_end.
  destruct (rf2xx_state w); simpl; try reflexivity;
    repeat match goal with
           | |- context [if ?c then _ else _] => destruct c; simpl
           end; reflexivity.
Qed.

Lemma memcpy_zero (dst src : list Z) : memcpy dst src 0 = dst.
Proof. reflexivity. Qed.

Lemma memcpy_firstn (dst src : list Z) (n : Z) :
  n <= Z.of_nat (length src) ->
  firstn (Z.to_nat n) (memcpy dst src n) = firstn (Z.to_nat n) src.
Proof.
  intro Hn. unfold memcpy.
  assert (Hlen : length (firstn (Z.to_nat n) src) = Z.to_nat n)
    by (apply firstn_length_le; lia).
  rewrite firstn_app, Hlen, Nat.sub_diag, firstn_firstn, Nat.min_id.
  simpl. apply app_nil_r.
Qed.

Lemma memcpy_skipn (dst src : list Z) (n : Z) :
  n <= Z.of_nat (length src) ->
  skipn (Z.to_nat n) (memcpy dst src n) = skipn (Z.to_nat n) dst.
Proof.
  intro Hn. unfold memcpy.
  assert (Hlen : length (firstn (Z.to_nat n) src) = Z.to_nat n)
    by (apply firstn_length_le; lia).
  rewrite skipn_app, Hlen, Nat.sub_diag.
  rewrite <- Hlen at 1. rewrite skipn_all. reflexivity.
Qed.

Lemma fifo_bytes_length (t : list effect) (n : Z) :
  length (fifo_bytes t n) = Z.to_nat n.
Proof. unfold fifo_bytes. rewrite length_map, length_seq. reflexivity. Qed.

Lemma to_u8_range (z : Z) : 0 <= to_u8 z < 256.
Proof. unfold to_u8. apply Z.mod_pos_bound. lia. Qed.

(** The frame drain on a frame whose CRC is valid. *)
Lemma read_crc_valid (buf : list Z) (buf_len : Z) (w : driver) :
  let w1 := emit (RegRead RF2XX_REG__PHY_RSSI) w in
  let w2 := emit FifoReadFirst w1 in
  let rssi := to_u8 (bus_read (trace w) (RegRead RF2XX_REG__PHY_RSSI)) in
  let first := to_u8 (bus_read (trace w1) FifoReadFirst) in
  let len := to_u8 (first - 2) in
  Z.land rssi RF2XX_PHY_RSSI_MASK__RX_CRC_VALID <> 0 ->
  read buf buf_len w =
    if len >? buf_len then (0, buf, emit (FifoReadRemaining 0) w2)
    else (len, memcpy buf (fifo_bytes (trace w2) len) len,
          emit (FifoReadRemaining len) w2).
Proof.
  intros w1 w2 rssi first len Hcrc. unfold read, rf2xx_reg_read.
  fold rssi. fold w1.
  destruct (Z.eqb_spec (Z.land rssi RF2XX_PHY_RSSI_MASK__RX_CRC_VALID) 0)
    as [H0 | _]; [contradiction |].
  unfold rf2xx_fifo_read_first. fold first. fold w2. fold len.
  destruct (len >? buf_len); reflexivity.
Qed.

(** The PLL wait and the steps around it leave the driver's variables
    alone. *)
Lemma tx_enter_state (flag : bool) (w : driver) :
  rf2xx_state (snd (tx_enter flag w)) = rf2xx_state w.
Proof.
  unfold tx_enter, rf2xx_reg_read. cbn [snd].
  rewrite (proj1 (pa_ext_enable_frame _)).
  destruct flag; cbn [rf2xx_state emit]; [apply idle_frame | reflexivity].
Qed.

Lemma pll_wait_state (fuel : nat) (time : Z) (w w' : driver)
  (v : pll_verdict) :
  pll_wait fuel time w = Some (v, w') -> rf2xx_state w' = rf2xx_state w.
Proof.
  revert w. induction fuel as [| fuel IH]; intros w H; simpl in H.
  - discriminate H.
  - destruct (RTIMER_CLOCK_LT time _).
    + injection H as _ <-. reflexivity.
    + destruct (to_u8 (bus_read (trace w) GetStatus)
                =? RF2XX_TRX_STATUS__PLL_ON).
      * injection H as _ <-. reflexivity.
      * apply IH in H. exact H.
Qed.

(** The wait for the end of the packet returns a driver that has left
    RF_TX, and fails to return only when the whole schedule has run and
    the state is still RF_TX. *)
Lemma wait_tx_end_left (sched : list env_event) (w w' : driver) :
  wait_tx_end sched w = Some w' -> rf2xx_state w' <> RF_TX.
Proof.
  revert w. induction sched as [| e sched IH]; intros w H; simpl in H;
    destruct (rf2xx_state_eqb (rf2xx_state w) RF_TX) eqn:E;
    try discriminate H.
  - injection H as <-. intro Heq. rewrite Heq in E. discriminate E.
  - apply IH in H. exact H.
  - injection H as <-. intro Heq. rewrite Heq in E. discriminate E.
Qed.

Lemma wait_tx_end_spins (sched : list env_event) (w : driver) :
  wait_tx_end sched w = None -> rf2xx_state (run_events sched w) = RF_TX.
Proof.
  revert w. induction sched as [| e sched IH]; intros w H; simpl in H;
    destruct (rf2xx_state_eqb (rf2xx_state w) RF_TX) eqn:E;
    try discriminate H.
  - apply rf2xx_state_eqb_eq in E. exact E.
  - apply IH in H. exact H.
Qed.

(** ** The claims *)

(** C1.  The claim asks that the critical section of [on], entered with
    the flag off and the state Idle, leaves the state at the Busy marker
    until [listen] runs.  The code does not: its statement
    [rf2xx_state == RF_BUSY;] compares and drops the result, so the
    critical section sets the flag, asks for [listen], and leaves the state
    at RF_IDLE, which is what any caller running before [listen] sees: a
    [transmit] arriving there passes the state check and takes the radio
    instead of being refused. *)
Theorem on_critical_leaves_idle (w : driver) :
  rf2xx_on w = 0 ->
  rf2xx_state w = RF_IDLE ->
  fst (rf2xx_wr_on_critical w) = true /\
  rf2xx_on (snd (rf2xx_wr_on_critical w)) = 1 /\
  rf2xx_state (snd (rf2xx_wr_on_critical w)) = RF_IDLE /\
  rf2xx_state (snd (rf2xx_wr_on_critical w)) <> RF_BUSY /\
  snd (rf2xx_wr_on w) = listen (snd (rf2xx_wr_on_critical w)) /\
  (forall fuel sched,
     rf2xx_wr_transmit fuel sched (tx_len w) (snd (rf2xx_wr_on_critical w))
     = tx_run fuel sched false
         (set_rf2xx_state RF_TX (snd (rf2xx_wr_on_critical w)))).
Proof.
  intros Hon Hst.
  assert (Hcrit : rf2xx_wr_on_critical w = (true, set_rf2xx_on 1 w)).
  { unfold rf2xx_wr_on_critical. rewrite Hon. simpl. rewrite Hst.
    reflexivity. }
  unfold rf2xx_wr_on. rewrite Hcrit. cbn [fst snd].
  repeat split; try reflexivity.
  - exact Hst.
  - cbn [rf2xx_state set_rf2xx_on]. rewrite Hst. discriminate.
  - intros fuel sched. unfold rf2xx_wr_transmit.
    cbn [tx_len rf2xx_state set_rf2xx_on]. rewrite Z.eqb_refl, Hst.
    reflexivity.
Qed.

(** C4.  [prepare] with a length above the capacity of 125 returns 1
    (payload too large), leaves the buffer as it was and records length 0;
    with a length within the capacity it returns 0, records the length and
    overwrites exactly the first [payload_len] cells of the buffer with the
    first [payload_len] cells of the payload.  The state, the flag and the
    trace are the same in both cases. *)
Theorem prepare_spec (payload : list Z) (payload_len : Z) (w : driver) :
  0 <= payload_len < 65536 ->
  let r := rf2xx_wr_prepare payload payload_len w in
  (RF2XX_MAX_PAYLOAD < payload_len ->
     fst r = 1 /\ tx_buf (snd r) = tx_buf w /\ tx_len (snd r) = 0) /\
  (payload_len <= RF2XX_MAX_PAYLOAD ->
     payload_len <= Z.of_nat (length payload) ->
     fst r = 0 /\ tx_len (snd r) = payload_len /\
     firstn (Z.to_nat payload_len) (tx_buf (snd r))
       = firstn (Z.to_nat payload_len) payload /\
     skipn (Z.to_nat payload_len) (tx_buf (snd r))
       = skipn (Z.to_nat payload_len) (tx_buf w)) /\
  rf2xx_state (snd r) = rf2xx_state w /\
  rf2xx_on (snd r) = rf2xx_on w /\
  trace (snd r) = trace w.
Proof.
  intros Hrange r. subst r. unfold rf2xx_wr_prepare.
  destruct (Z.gtb_spec payload_len RF2XX_MAX_PAYLOAD) as [Hbig | Hfit].
  - simpl. repeat split; intros; try reflexivity; lia.
  - simpl.
    assert (Hu8 : to_u8 payload_len = payload_len).
    { unfold to_u8, RF2XX_MAX_PAYLOAD in *. apply Z.mod_small. lia. }
    rewrite Hu8.
    repeat split; intros; try reflexivity.
    + unfold RF2XX_MAX_PAYLOAD in *. lia.
    + unfold RF2XX_MAX_PAYLOAD in *. lia.
    + unfold RF2XX_MAX_PAYLOAD in *. lia.
    + apply memcpy_firstn. assumption.
    + apply memcpy_skipn. assumption.
Qed.

(** C5.  When the length is the prepared one and the state is neither
    Idle nor Listening, [transmit] returns the collision code and the driver
    is left exactly as it was: state, flag, buffer, length and trace. *)
Theorem transmit_collision (fuel : nat) (sched : list env_event)
  (transmit_len : Z) (w : driver) :
  tx_len w = transmit_len ->
  rf2xx_state w <> RF_IDLE ->
  rf2xx_state w <> RF_LISTEN ->
  rf2xx_wr_transmit fuel sched transmit_len w = Some (RADIO_TX_COLLISION, w).
Proof.
  intros Hlen Hidle Hlisten. unfold rf2xx_wr_transmit.
  rewrite Hlen, Z.eqb_refl. simpl.
  destruct (rf2xx_state w); try reflexivity; contradiction.
Qed.

(** C10.  The length test comes first: when the length differs from the
    prepared one, [transmit] returns the error code (not the collision
    code) in every state, and the driver is left exactly as it was. *)
Theorem transmit_length_mismatch (fuel : nat) (sched : list env_event)
  (transmit_len : Z) (w : driver) :
  tx_len w <> transmit_len ->
  rf2xx_wr_transmit fuel sched transmit_len w = Some (RADIO_TX_ERR, w).
Proof.
  intro Hne. unfold rf2xx_wr_transmit.
  destruct (Z.eqb_spec (tx_len w) transmit_len); [contradiction | reflexivity].
Qed.

(** C8.  With the flag already set, [on] returns 1 and changes nothing:
    not the flag, not the state, and it issues no chip command.  Hence
    a second [on] right after a first one is a no-op. *)
Theorem on_idempotent (w : driver) :
  (rf2xx_on w <> 0 -> rf2xx_wr_on w = (1, w)) /\
  rf2xx_wr_on (snd (rf2xx_wr_on w)) = (1, snd (rf2xx_wr_on w)).
Proof.
  assert (Hnoop : forall v, rf2xx_on v <> 0 -> rf2xx_wr_on v = (1, v)).
  { intros v Hv. unfold rf2xx_wr_on, rf2xx_wr_on_critical.
    destruct (Z.eqb_spec (rf2xx_on v) 0); [contradiction | reflexivity]. }
  split; [apply Hnoop |].
  apply Hnoop.
  unfold rf2xx_wr_on, rf2xx_wr_on_critical.
  destruct (Z.eqb_spec (rf2xx_on w) 0) as [Hoff | Hon].
  - simpl. destruct (rf2xx_state_eqb (rf2xx_state w) RF_IDLE); simpl.
    + rewrite (proj1 (proj2 (pa_ext_enable_frame _))). simpl. discriminate.
    + discriminate.
  - simpl. assumption.
Qed.

(** C2.  The interrupt handler as a function of the state and of the
    latch [reg] it reads from IRQ_STATUS.  (1) Outside Transmitting,
    Listening and Receiving it returns the driver untouched, without even
    reading the latch.  (2) From Listening with receive-start reported, it
    writes Receiving; that is the final state unless transfer-end is
    reported too, in which case the rx/tx end test then runs from
    Receiving.  (3) With transfer-end reported, Transmitting becomes
    TransmitDone.  (4) With transfer-end reported, Receiving and Listening
    become ReceiveDone, the chip is commanded to PLL_ON and the worker
    process is polled, in this order. *)
Theorem irq_handler_spec (w : driver) :
  let reg := to_u8 (bus_read (trace w) (RegRead RF2XX_REG__IRQ_STATUS)) in
  let rx_start := negb (Z.land reg RF2XX_IRQ_STATUS_MASK__RX_START =? 0) in
  let trx_end := negb (Z.land reg RF2XX_IRQ_STATUS_MASK__TRX_END =? 0) in
  let w1 := emit (RegRead RF2XX_REG__IRQ_STATUS) w in
  (rf2xx_state w <> RF_TX ->
   rf2xx_state w <> RF_LISTEN ->
   rf2xx_state w <> RF_RX ->
   irq_handler w = w) /\
  (rf2xx_state w = RF_LISTEN ->
   rx_start = true ->
   irq_rx_start reg RF_LISTEN w1 = (RF_RX, set_rf2xx_state RF_RX w1) /\
   irq_handler w = irq_trx_end reg RF_RX (set_rf2xx_state RF_RX w1) /\
   (trx_end = false -> irq_handler w = set_rf2xx_state RF_RX w1)) /\
  (trx_end = true ->
   rf2xx_state w = RF_TX ->
   irq_handler w = set_rf2xx_state RF_TX_DONE w1) /\
  (trx_end = true ->
   rf2xx_state w = RF_RX \/ rf2xx_state w = RF_LISTEN ->
   irq_handler w =
     emit ProcessPoll
       (emit (SetState RF2XX_TRX_STATE__PLL_ON)
          (set_rf2xx_state RF_RX_DONE w1))).
Proof.
  intros reg rx_start trx_end w1.
  split; [| split; [| split]].
  - intros Htx Hlisten Hrx. unfold irq_handler.
    destruct (rf2xx_state w); try reflexivity; contradiction.
  - intros Hst Hstart.
    assert (Hstep :
      irq_rx_start reg RF_LISTEN w1 = (RF_RX, set_rf2xx_state RF_RX w1)).
    { unfold irq_rx_start. fold rx_start. rewrite Hstart. reflexivity. }
    assert (Hall :
      irq_handler w = irq_trx_end reg RF_RX (set_rf2xx_state RF_RX w1)).
    { unfold irq_handler. rewrite Hst. unfold rf2xx_reg_read.
      fold reg. fold w1. rewrite Hstep. reflexivity. }
    split; [exact Hstep | split; [exact Hall |]].
    intro Hend. rewrite Hall. unfold irq_trx_end. fold trx_end.
    rewrite Hend. reflexivity.
  - intros Hend Hst. unfold irq_handler. rewrite Hst.
    unfold rf2xx_reg_read. fold reg. fold w1.
    unfold irq_rx_start. rewrite andb_false_r.
    unfold irq_trx_end. fold trx_end. rewrite Hend. reflexivity.
  - intros Hend [Hst | Hst]; unfold irq_handler; rewrite Hst;
      unfold rf2xx_reg_read; fold reg; fold w1;
      unfold irq_rx_start; fold rx_start.
    + rewrite andb_false_r. unfold irq_trx_end. fold trx_end.
      rewrite Hend. reflexivity.
    + destruct rx_start; simpl; unfold irq_trx_end; fold trx_end;
        rewrite Hend; reflexivity.
Qed.

(** C7.  [off] with the flag set and the state Listening: the critical
    section clears the flag and writes the Busy marker, then [idle] runs
    and the state is written Idle.  [off] in state Transmitting: the state
    stays Transmitting and no chip command is issued, the flag is cleared,
    the wait loop of a transmit in flight goes on, and the [restart] that
    ends the transmit, after the completion interrupt or without it,
    resolves to Idle. *)
Theorem off_listening_and_transmitting (w : driver) :
  (rf2xx_state w = RF_LISTEN ->
   rf2xx_on w <> 0 ->
   rf2xx_wr_off_critical w
     = (true, set_rf2xx_state RF_BUSY (set_rf2xx_on 0 w)) /\
   rf2xx_wr_off w
     = (1, set_rf2xx_state RF_IDLE
             (idle (set_rf2xx_state RF_BUSY (set_rf2xx_on 0 w)))) /\
   rf2xx_state (snd (rf2xx_wr_off w)) = RF_IDLE /\
   rf2xx_on (snd (rf2xx_wr_off w)) = 0) /\
  (rf2xx_state w = RF_TX ->
   rf2xx_state (snd (rf2xx_wr_off w)) = RF_TX /\
   rf2xx_on (snd (rf2xx_wr_off w)) = 0 /\
   trace (snd (rf2xx_wr_off w)) = trace w /\
   (forall sched,
      wait_tx_end (EvOff :: sched) w
        = wait_tx_end sched (snd (rf2xx_wr_off w))) /\
   rf2xx_state (restart (snd (rf2xx_wr_off w))) = RF_IDLE /\
   rf2xx_state (restart (irq_handler (snd (rf2xx_wr_off w)))) = RF_IDLE).
Proof.
  split.
  - intros Hst Hon.
    assert (Hcrit : rf2xx_wr_off_critical w
              = (true, set_rf2xx_state RF_BUSY (set_rf2xx_on 0 w))).
    { unfold rf2xx_wr_off_critical.
      destruct (Z.eqb_spec (rf2xx_on w) 0); [contradiction |].
      simpl. rewrite Hst. reflexivity. }
    unfold rf2xx_wr_off. rewrite Hcrit.
    repeat split; try reflexivity.
    cbn [snd set_rf2xx_state rf2xx_on].
    rewrite (proj1 (proj2 (idle_frame _))). reflexivity.
  - intros Hst.
    assert (Hoff : snd (rf2xx_wr_off w) = set_rf2xx_on 0 w
                   \/ (snd (rf2xx_wr_off w) = w /\ rf2xx_on w = 0)).
    { unfold rf2xx_wr_off, rf2xx_wr_off_critical.
      destruct (Z.eqb_spec (rf2xx_on w) 0) as [H0 | H0]; simpl.
      - right. split; [reflexivity | assumption].
      - rewrite Hst. simpl. left. reflexivity. }
    assert (Hflag : rf2xx_on (snd (rf2xx_wr_off w)) = 0).
    { destruct Hoff as [-> | [-> H0]]; [reflexivity | assumption]. }
    repeat split.
    + destruct Hoff as [-> | [-> _]]; simpl; assumption.
    + exact Hflag.
    + destruct Hoff as [-> | [-> _]]; reflexivity.
    + intro sched. simpl. rewrite Hst. reflexivity.
    + apply restart_off. exact Hflag.
    + apply restart_off. rewrite irq_handler_on. exact Hflag.
Qed.

(** C6.  On a frame whose CRC is valid, the frame drain takes the
    payload length [len] to be the length byte minus 2, held in 8 bits like
    the length byte itself (for a length byte of 2 or more, which every
    frame that carries its 2-byte trailer has, this is the plain
    difference).  If [len] exceeds [buf_len], the drain reads zero bytes
    from the FIFO to end the transfer, leaves the buffer as it was and
    returns 0.  Otherwise it reads [len] bytes from the FIFO, which
    overwrite exactly the first [len] cells of the buffer, and returns
    [len]. *)
Theorem read_frame_drain (buf : list Z) (buf_len : Z) (w : driver) :
  let w1 := emit (RegRead RF2XX_REG__PHY_RSSI) w in
  let w2 := emit FifoReadFirst w1 in
  let rssi := to_u8 (bus_read (trace w) (RegRead RF2XX_REG__PHY_RSSI)) in
  let first := to_u8 (bus_read (trace w1) FifoReadFirst) in
  let len := to_u8 (first - 2) in
  Z.land rssi RF2XX_PHY_RSSI_MASK__RX_CRC_VALID <> 0 ->
  (2 <= first -> len = first - 2) /\
  (buf_len < len ->
   read buf buf_len w = (0, buf, emit (FifoReadRemaining 0) w2)) /\
  (len <= buf_len ->
   read buf buf_len w =
     (len, memcpy buf (fifo_bytes (trace w2) len) len,
      emit (FifoReadRemaining len) w2) /\
   Z.of_nat (length (fifo_bytes (trace w2) len)) = len /\
   firstn (Z.to_nat len) (snd (fst (read buf buf_len w)))
     = fifo_bytes (trace w2) len /\
   skipn (Z.to_nat len) (snd (fst (read buf buf_len w)))
     = skipn (Z.to_nat len) buf).
Proof.
  intros w1 w2 rssi first len Hcrc.
  pose proof (read_crc_valid buf buf_len w Hcrc) as Hread.
  fold w1 w2 first len in Hread.
  pose proof (to_u8_range (first - 2)) as Hlen. fold len in Hlen.
  split; [| split].
  - intro H2. subst len. unfold to_u8. apply Z.mod_small.
    pose proof (to_u8_range (bus_read (trace w1) FifoReadFirst)) as Hf.
    fold first in Hf. lia.
  - intro Hbig. rewrite Hread.
    destruct (Z.gtb_spec len buf_len); [reflexivity | lia].
  - intro Hfit.
    assert (Heq : read buf buf_len w =
      (len, memcpy buf (fifo_bytes (trace w2) len) len,
       emit (FifoReadRemaining len) w2)).
    { rewrite Hread. destruct (Z.gtb_spec len buf_len); [lia | reflexivity]. }
    assert (Hsz : Z.of_nat (length (fifo_bytes (trace w2) len)) = len).
    { rewrite fifo_bytes_length. lia. }
    rewrite Heq. cbn [fst snd].
    repeat split.
    + exact Hsz.
    + rewrite memcpy_firstn by lia.
      apply firstn_all2. rewrite fifo_bytes_length. lia.
    + apply memcpy_skipn. lia.
Qed.

(** C9.  The public read hands its 16-bit [buf_len] to the frame drain
    as an 8-bit value.  For a [buf_len] of 256 or more, with a frame
    pending whose CRC is valid: the call behaves as with [buf_len mod 256];
    the payload length, below 256, never exceeds [buf_len] itself, yet the
    frame is dropped (0 returned, buffer untouched) when the payload length
    exceeds [buf_len mod 256] and copied otherwise; with [buf_len = 256]
    every frame with a non-empty payload is dropped. *)
Theorem wr_read_buf_len_truncated (buf : list Z) (buf_len : Z) (w : driver) :
  let w1 := emit (RegRead RF2XX_REG__PHY_RSSI) w in
  let w2 := emit FifoReadFirst w1 in
  let rssi := to_u8 (bus_read (trace w) (RegRead RF2XX_REG__PHY_RSSI)) in
  let first := to_u8 (bus_read (trace w1) FifoReadFirst) in
  let len := to_u8 (first - 2) in
  256 <= buf_len < 65536 ->
  rf2xx_state w = RF_RX_DONE ->
  Z.land rssi RF2XX_PHY_RSSI_MASK__RX_CRC_VALID <> 0 ->
  rf2xx_wr_read buf buf_len w = rf2xx_wr_read buf (buf_len mod 256) w /\
  len < buf_len /\
  (buf_len mod 256 < len -> fst (rf2xx_wr_read buf buf_len w) = (0, buf)) /\
  (len <= buf_len mod 256 ->
   fst (rf2xx_wr_read buf buf_len w)
     = (len, memcpy buf (fifo_bytes (trace w2) len) len)) /\
  (buf_len = 256 -> 0 < len -> fst (rf2xx_wr_read buf buf_len w) = (0, buf)).
Proof.
  intros w1 w2 rssi first len Hrange Hst Hcrc.
  pose proof (to_u8_range (first - 2)) as Hlen. fold len in Hlen.
  assert (Hread : forall n,
    fst (rf2xx_wr_read buf n w) =
      if len >? to_u8 n then (0, buf)
      else (len, memcpy buf (fifo_bytes (trace w2) len) len)).
  { intro n. unfold rf2xx_wr_read. rewrite Hst. cbn [rf2xx_state_eqb negb].
    rewrite (read_crc_valid buf (to_u8 n) (set_rf2xx_state RF_RX_READ w) Hcrc).
    unfold len, first, w2, w1. cbn [trace set_rf2xx_state emit].
    destruct (_ >? to_u8 n); reflexivity. }
  split; [| split; [| split; [| split]]].
  - unfold rf2xx_wr_read. rewrite Hst. cbn [rf2xx_state_eqb negb].
    unfold to_u8. rewrite Z.mod_mod by lia. reflexivity.
  - lia.
  - intro Hbig. rewrite Hread. unfold to_u8.
    destruct (Z.gtb_spec len (buf_len mod 256)); [reflexivity | lia].
  - intro Hfit. rewrite Hread. unfold to_u8.
    destruct (Z.gtb_spec len (buf_len mod 256)); [lia | reflexivity].
  - intros -> Hpos. rewrite Hread. unfold to_u8.
    change (256 mod 256) with 0.
    destruct (Z.gtb_spec len 0); [reflexivity | lia].
Qed.

(** More polls and more events do not change a result already
    obtained. *)
Lemma pll_wait_more_fuel (fuel extra : nat) (time : Z) (w : driver)
  (r : pll_verdict * driver) :
  pll_wait fuel time w = Some r -> pll_wait (fuel + extra) time w = Some r.
Proof.
  revert w. induction fuel as [| fuel IH]; intros w H; simpl in H.
  - discriminate H.
  - simpl. destruct (RTIMER_CLOCK_LT time _); [exact H |].
    destruct (_ =? RF2XX_TRX_STATUS__PLL_ON); [exact H |].
    apply IH. exact H.
Qed.

Lemma wait_tx_end_more_events (sched later : list env_event)
  (w w' : driver) :
  wait_tx_end sched w = Some w' -> wait_tx_end (sched ++ later) w = Some w'.
Proof.
  revert w. induction sched as [| e sched IH]; intros w H; simpl in H.
  - destruct (rf2xx_state_eqb (rf2xx_state w) RF_TX) eqn:E;
      [discriminate H |].
    destruct later; simpl; rewrite E; exact H.
  - simpl. destruct (rf2xx_state_eqb (rf2xx_state w) RF_TX);
      [apply IH |]; exact H.
Qed.

Lemma rf2xx_wr_transmit_stable (fuel extra : nat)
  (sched later : list env_event) (transmit_len : Z) (w : driver)
  (r : radio_tx_t * driver) :
  rf2xx_wr_transmit fuel sched transmit_len w = Some r ->
  rf2xx_wr_transmit (fuel + extra) (sched ++ later) transmit_len w = Some r.
Proof.
  assert (Hrun : forall flag v,
    tx_run fuel sched flag v = Some r ->
    tx_run (fuel + extra) (sched ++ later) flag v = Some r).
  { intros flag v H. unfold tx_run in *.
    destruct (tx_enter flag v) as [time w1].
    destruct (pll_wait fuel time w1) as [[[|] w2] |] eqn:Hpll;
      try discriminate H;
      rewrite (pll_wait_more_fuel fuel extra time w1 _ Hpll);
      [| exact H].
    destruct (wait_tx_end sched (tx_start w2)) as [w3 |] eqn:Hwait;
      [| discriminate H].
    rewrite (wait_tx_end_more_events sched later _ _ Hwait). exact H. }
  unfold rf2xx_wr_transmit.
  destruct (negb (tx_len w =? transmit_len)); [intro H; exact H |].
  destruct (rf2xx_state w); try (intro H; exact H); apply Hrun.
Qed.

End Properties.

(** * The properties on the concrete boards *)

(** Complete runs of [transmit].  On [board]: from Listening with the
    completion interrupt delivered; from Idle; with [off] called during the
    wait.  On [stuck_board]: the PLL wait times out at the second poll.
    With no event at all the wait for the end of the packet never ends. *)
Example transmit_ok_from_listening :
  tx_outcome (rf2xx_wr_transmit (P:=board) 1 [EvIrq] 3 listening_driver)
  = Some (RADIO_TX_OK, RF_LISTEN, 1).
Proof. vm_compute. reflexivity. Qed.

Example transmit_ok_from_idle :
  tx_outcome (rf2xx_wr_transmit (P:=board) 1 [EvIrq] 0 init_driver)
  = Some (RADIO_TX_OK, RF_IDLE, 0).
Proof. vm_compute. reflexivity. Qed.

Example transmit_ok_off_in_flight :
  tx_outcome
    (rf2xx_wr_transmit (P:=board) 1 [EvOff; EvIrq] 3 listening_driver)
  = Some (RADIO_TX_OK, RF_IDLE, 0).
Proof. vm_compute. reflexivity. Qed.

Example transmit_pll_timeout :
  tx_outcome (rf2xx_wr_transmit (P:=stuck_board) 2 [] 3 listening_driver)
  = Some (RADIO_TX_ERR, RF_LISTEN, 1).
Proof. vm_compute. reflexivity. Qed.

Example transmit_no_interrupt :
  rf2xx_wr_transmit (P:=board) 1 [EvOn; EvOff] 3 listening_driver = None.
Proof. vm_compute. reflexivity. Qed.

Lemma on_critical_leaves_idle_witness :
  fst (rf2xx_wr_on_critical init_driver) = true /\
  rf2xx_on (snd (rf2xx_wr_on_critical init_driver)) = 1 /\
  rf2xx_state (snd (rf2xx_wr_on_critical init_driver)) = RF_IDLE /\
  rf2xx_state (snd (rf2xx_wr_on_critical init_driver)) <> RF_BUSY /\
  snd (rf2xx_wr_on (P:=board) init_driver)
    = listen (P:=board) (snd (rf2xx_wr_on_critical init_driver)).
Proof.
  destruct (on_critical_leaves_idle (P:=board) init_driver eq_refl eq_refl)
    as (Hflag & Hon & Hidle & Hbusy & Hlisten & _).
  exact (conj Hflag (conj Hon (conj Hidle (conj Hbusy Hlisten)))).
Defined.

Lemma irq_handler_spec_witness :
  irq_handler (P:=board) init_driver = init_driver /\
  irq_handler (P:=stuck_board) listening_driver
    = set_rf2xx_state RF_RX
        (emit (RegRead RF2XX_REG__IRQ_STATUS) listening_driver) /\
  irq_handler (P:=board) transmitting_driver
    = set_rf2xx_state RF_TX_DONE
        (emit (RegRead RF2XX_REG__IRQ_STATUS) transmitting_driver) /\
  irq_handler (P:=board) listening_driver
    = emit ProcessPoll
        (emit (SetState RF2XX_TRX_STATE__PLL_ON)
           (set_rf2xx_state RF_RX_DONE
              (emit (RegRead RF2XX_REG__IRQ_STATUS) listening_driver))).
Proof.
  split; [| split; [| split]].
  - apply (proj1 (irq_handler_spec (P:=board) init_driver)); discriminate.
  - apply (proj1 (proj2 (irq_handler_spec (P:=stuck_board) listening_driver)));
      reflexivity.
  - apply (proj1 (proj2 (proj2
             (irq_handler_spec (P:=board) transmitting_driver))));
      reflexivity.
  - apply (proj2 (proj2 (proj2
             (irq_handler_spec (P:=board) listening_driver))));
      [reflexivity | right; reflexivity].
Defined.

Lemma prepare_spec_witness :
  (fst (rf2xx_wr_prepare [1; 2; 3] 126 listening_driver) = 1 /\
   tx_buf (snd (rf2xx_wr_prepare [1; 2; 3] 126 listening_driver))
     = tx_buf listening_driver /\
   tx_len (snd (rf2xx_wr_prepare [1; 2; 3] 126 listening_driver)) = 0) /\
  (fst (rf2xx_wr_prepare [1; 2; 3] 2 listening_driver) = 0 /\
   tx_len (snd (rf2xx_wr_prepare [1; 2; 3] 2 listening_driver)) = 2 /\
   firstn 2 (tx_buf (snd (rf2xx_wr_prepare [1; 2; 3] 2 listening_driver)))
     = [1; 2] /\
   skipn 2 (tx_buf (snd (rf2xx_wr_prepare [1; 2; 3] 2 listening_driver)))
     = skipn 2 (tx_buf listening_driver)).
Proof.
  split.
  - apply (proj1 (prepare_spec [1; 2; 3] 126 listening_driver
                    ltac:(lia))).
    reflexivity.
  - apply (proj1 (proj2 (prepare_spec [1; 2; 3] 2 listening_driver
                           ltac:(lia)))).
    + vm_compute. discriminate.
    + vm_compute. discriminate.
Defined.

Lemma transmit_collision_witness :
  rf2xx_wr_transmit (P:=board) 1 [EvIrq] 3 transmitting_driver
  = Some (RADIO_TX_COLLISION, transmitting_driver).
Proof.
  apply (transmit_collision (P:=board) 1 [EvIrq] 3 transmitting_driver);
    [reflexivity | discriminate | discriminate].
Defined.

Lemma transmit_length_mismatch_witness :
  rf2xx_wr_transmit (P:=board) 1 [EvIrq] 4 transmitting_driver
  = Some (RADIO_TX_ERR, transmitting_driver).
Proof.
  apply (transmit_length_mismatch (P:=board) 1 [EvIrq] 4 transmitting_driver).
  discriminate.
Defined.

Lemma on_idempotent_witness :
  rf2xx_wr_on (P:=board) listening_driver = (1, listening_driver).
Proof.
  apply (proj1 (on_idempotent (P:=board) listening_driver)). discriminate.
Defined.

Lemma off_listening_and_transmitting_witness :
  (rf2xx_state (snd (rf2xx_wr_off (P:=board) listening_driver)) = RF_IDLE /\
   rf2xx_on (snd (rf2xx_wr_off (P:=board) listening_driver)) = 0) /\
  (rf2xx_state (snd (rf2xx_wr_off (P:=board) transmitting_driver)) = RF_TX /\
   rf2xx_on (snd (rf2xx_wr_off (P:=board) transmitting_driver)) = 0 /\
   rf2xx_state
     (restart (P:=board)
        (irq_handler (P:=board)
           (snd (rf2xx_wr_off (P:=board) transmitting_driver)))) = RF_IDLE).
Proof.
  split.
  - apply (proj1 (off_listening_and_transmitting (P:=board)
                    listening_driver));
      [reflexivity | discriminate].
  - destruct (proj2 (off_listening_and_transmitting (P:=board)
                       transmitting_driver) eq_refl)
      as (Hst & Hon & _ & _ & _ & Hend).
    exact (conj Hst (conj Hon Hend)).
Defined.

Lemma read_frame_drain_witness :
  read (P:=board) (repeat 0 8) 8 rx_done_driver
    = (3, [10; 11; 12; 0; 0; 0; 0; 0],
       emit (FifoReadRemaining 3)
         (emit FifoReadFirst
            (emit (RegRead RF2XX_REG__PHY_RSSI) rx_done_driver))) /\
  read (P:=board) (repeat 0 8) 2 rx_done_driver
    = (0, repeat 0 8,
       emit (FifoReadRemaining 0)
         (emit FifoReadFirst
            (emit (RegRead RF2XX_REG__PHY_RSSI) rx_done_driver))).
Proof.
  split.
  - apply (proj2 (proj2 (read_frame_drain (P:=board) (repeat 0 8) 8
                           rx_done_driver ltac:(vm_compute; discriminate)))).
    vm_compute. discriminate.
  - apply (proj1 (proj2 (read_frame_drain (P:=board) (repeat 0 8) 2
                           rx_done_driver ltac:(vm_compute; discriminate)))).
    vm_compute. reflexivity.
Defined.

Lemma wr_read_buf_len_truncated_witness :
  fst (rf2xx_wr_read (P:=board) (repeat 0 300) 256 rx_done_driver)
    = (0, repeat 0 300) /\
  fst (rf2xx_wr_read (P:=board) (repeat 0 300) 258 rx_done_driver)
    = (0, repeat 0 300) /\
  fst (rf2xx_wr_read (P:=board) (repeat 0 300) 259 rx_done_driver)
    = (3, [10; 11; 12] ++ repeat 0 297).
Proof.
  split; [| split].
  - apply (proj2 (proj2 (proj2 (proj2
      (wr_read_buf_len_truncated (P:=board) (repeat 0 300) 256 rx_done_driver
         ltac:(lia) eq_refl ltac:(vm_compute; discriminate))))));
      reflexivity.
  - apply (proj1 (proj2 (proj2
      (wr_read_buf_len_truncated (P:=board) (repeat 0 300) 258 rx_done_driver
         ltac:(lia) eq_refl ltac:(vm_compute; discriminate))))).
    vm_compute. reflexivity.
  - apply (proj1 (proj2 (proj2 (proj2
      (wr_read_buf_len_truncated (P:=board) (repeat 0 300) 259 rx_done_driver
         ltac:(lia) eq_refl ltac:(vm_compute; discriminate)))))).
    vm_compute. discriminate.
Defined.

(** * Further properties of the driver *)

Section MoreProperties.

Context {P : Platform}.

(** ** Frame and trace lemmas *)

Lemma count_eff_emit (p : effect -> bool) (e : effect) (w : driver) :
  count_eff p (trace (emit e w))
  = (count_eff p (trace w) + if p e then 1 else 0)%nat.
Proof.
  unfold count_eff. cbn [trace emit]. rewrite filter_app, length_app.
  simpl. destruct (p e); reflexivity.
Qed.

Lemma count_eff_set_state (p : effect -> bool) (s : rf2xx_state_t)
  (w : driver) :
  count_eff p (trace (set_rf2xx_state s w)) = count_eff p (trace w).
Proof. reflexivity. Qed.

(** The mode controller issues no effect that a [mode_silent] predicate
    counts. *)
Lemma idle_count (p : effect -> bool) (w : driver) :
  mode_silent p -> count_eff p (trace (idle w)) = count_eff p (trace w).
Proof.
  intro Hp. unfold idle, rf2xx_reg_read, rf2xx_reg_write.
  destruct rf2xx_has_pa; repeat rewrite count_eff_emit;
    rewrite !Hp by reflexivity; rewrite ?Nat.add_0_r; reflexivity.
Qed.

Lemma pa_ext_enable_count (p : effect -> bool) (w : driver) :
  mode_silent p ->
  count_eff p (trace (pa_ext_enable w)) = count_eff p (trace w).
Proof.
  intro Hp. unfold pa_ext_enable, rf2xx_reg_read, rf2xx_reg_write.
  destruct rf2xx_has_pa; repeat rewrite count_eff_emit;
    rewrite ?Hp by reflexivity; rewrite ?Nat.add_0_r; reflexivity.
Qed.

Lemma listen_count (p : effect -> bool) (w : driver) :
  mode_silent p -> count_eff p (trace (listen w)) = count_eff p (trace w).
Proof.
  intro Hp. unfold listen, rf2xx_reg_read.
  rewrite count_eff_emit, count_eff_set_state, count_eff_emit,
    pa_ext_enable_count, count_eff_emit by assumption.
  rewrite !Hp by reflexivity. rewrite !Nat.add_0_r. reflexivity.
Qed.

Lemma restart_count (p : effect -> bool) (w : driver) :
  mode_silent p -> count_eff p (trace (restart w)) = count_eff p (trace w).
Proof.
  intro Hp. unfold restart.
  destruct (negb (rf2xx_on (idle w) =? 0)).
  - rewrite listen_count, idle_count by assumption. reflexivity.
  - rewrite count_eff_set_state, idle_count by assumption. reflexivity.
Qed.

Lemma rf2xx_wr_on_count (p : effect -> bool) (w : driver) :
  mode_silent p ->
  count_eff p (trace (snd (rf2xx_wr_on w))) = count_eff p (trace w).
Proof.
  intro Hp. unfold rf2xx_wr_on, rf2xx_wr_on_critical.
  destruct (rf2xx_on w =? 0); [| reflexivity].
  destruct (rf2xx_state_eqb _ RF_IDLE); cbn [snd]; [| reflexivity].
  rewrite listen_count by assumption. reflexivity.
Qed.

Lemma rf2xx_wr_off_count (p : effect -> bool) (w : driver) :
  mode_silent p ->
  count_eff p (trace (snd (rf2xx_wr_off w))) = count_eff p (trace w).
Proof.
  intro Hp. unfold rf2xx_wr_off, rf2xx_wr_off_critical.
  destruct (negb (rf2xx_on w =? 0)); [| reflexivity].
  destruct (rf2xx_state_eqb _ RF_LISTEN); cbn [snd]; [| reflexivity].
  rewrite count_eff_set_state, idle_count by assumption. reflexivity.
Qed.

Lemma silent_slp_tr_set : mode_silent is_slp_tr_set.
Proof. intros [] H; try reflexivity; discriminate H. Qed.

Lemma silent_fifo_write : mode_silent is_fifo_write.
Proof. intros [] H; try reflexivity; discriminate H. Qed.

Lemma silent_fifo_read : mode_silent is_fifo_read.
Proof. intros [] H; try reflexivity; discriminate H. Qed.

Lemma silent_process_poll : mode_silent is_process_poll.
Proof. intros [] H; try reflexivity; discriminate H. Qed.

(** What [on], [off] and the interrupt handler leave alone. *)
Lemma irq_handler_frame (w : driver) :
  rf2xx_on (irq_handler w) = rf2xx_on w /\
  tx_buf (irq_handler w) = tx_buf w /\
  tx_len (irq_handler w) = tx_len w.
Proof.
  unfold irq_handler, irq_rx_start, irq_trx_end.
  destruct (rf2xx_state w); simpl; try (repeat split; reflexivity);
    repeat match goal with
           | |- context [if ?c then _ else _] => destruct c; simpl
           end; repeat split; reflexivity.
Qed.

Lemma rf2xx_wr_on_frame (w : driver) :
  tx_buf (snd (rf2xx_wr_on w)) = tx_buf w /\
  tx_len (snd (rf2xx_wr_on w)) = tx_len w.
Proof.
  unfold rf2xx_wr_on, rf2xx_wr_on_critical.
  destruct (rf2xx_on w =? 0); [| split; reflexivity].
  destruct (rf2xx_state_eqb _ RF_IDLE); cbn [snd]; [| split; reflexivity].
  destruct (listen_frame (set_rf2xx_on 1 w)) as (_ & _ & Hb & Hl).
  split; assumption.
Qed.

Lemma rf2xx_wr_off_frame (w : driver) :
  tx_buf (snd (rf2xx_wr_off w)) = tx_buf w /\
  tx_len (snd (rf2xx_wr_off w)) = tx_len w.
Proof.
  unfold rf2xx_wr_off, rf2xx_wr_off_critical.
  destruct (negb (rf2xx_on w =? 0)); [| split; reflexivity].
  destruct (rf2xx_state_eqb _ RF_LISTEN); cbn [snd]; [| split; reflexivity].
  cbn [set_rf2xx_state tx_buf tx_len].
  destruct (idle_frame (set_rf2xx_state RF_BUSY (set_rf2xx_on 0 w)))
    as (_ & _ & Hb & Hl).
  split; assumption.
Qed.

Lemma run_event_frame (e : env_event) (w : driver) :
  tx_buf (run_event e w) = tx_buf w /\ tx_len (run_event e w) = tx_len w.
Proof.
  destruct e; simpl.
  - destruct (irq_handler_frame w) as (_ & Hb & Hl). split; assumption.
  - apply rf2xx_wr_on_frame.
  - apply rf2xx_wr_off_frame.
Qed.

(** While the state is RF_TX, nothing that can run moves it anywhere but
    to RF_TX_DONE. *)
Lemma run_event_from_tx (e : env_event) (w : driver) :
  rf2xx_state w = RF_TX ->
  rf2xx_state (run_event e w) = RF_TX \/
  rf2xx_state (run_event e w) = RF_TX_DONE.
Proof.
  intro Hst. destruct e; simpl.
  - unfold irq_handler. rewrite Hst. unfold rf2xx_reg_read, irq_rx_start.
    rewrite andb_false_r. unfold irq_trx_end.
    destruct (negb _); simpl; [right | left]; [reflexivity | exact Hst].
  - unfold rf2xx_wr_on, rf2xx_wr_on_critical.
    destruct (rf2xx_on w =? 0); [| left; exact Hst].
    cbn [rf2xx_state set_rf2xx_on]. rewrite Hst. left. exact Hst.
  - unfold rf2xx_wr_off, rf2xx_wr_off_critical.
    destruct (negb (rf2xx_on w =? 0)); [| left; exact Hst].
    cbn [rf2xx_state set_rf2xx_on]. rewrite Hst. left. exact Hst.
Qed.

Lemma wait_tx_end_done (sched : list env_event) (w w' : driver) :
  rf2xx_state w = RF_TX ->
  wait_tx_end sched w = Some w' ->
  rf2xx_state w' = RF_TX_DONE.
Proof.
  revert w. induction sched as [| e sched IH]; intros w Hst H;
    simpl in H; rewrite Hst in H; simpl in H.
  - discriminate H.
  - destruct (run_event_from_tx e w Hst) as [Htx | Hdone].
    + exact (IH _ Htx H).
    + destruct sched; simpl in H; rewrite Hdone in H; simpl in H;
        injection H as <-; exact Hdone.
Qed.

(** Every function only appends to the trace. *)
Lemma idle_extends (w : driver) : exists l, trace (idle w) = trace w ++ l.
Proof.
  unfold idle, rf2xx_reg_read, rf2xx_reg_write.
  destruct rf2xx_has_pa; cbn [trace emit]; eexists;
    rewrite <- !app_assoc; reflexivity.
Qed.

Lemma pa_ext_enable_extends (w : driver) :
  exists l, trace (pa_ext_enable w) = trace w ++ l.
Proof.
  unfold pa_ext_enable, rf2xx_reg_read, rf2xx_reg_write.
  destruct rf2xx_has_pa; cbn [trace emit].
  - eexists. rewrite <- !app_assoc. reflexivity.
  - exists []. symmetry. apply app_nil_r.
Qed.

Lemma listen_extends (w : driver) : exists l, trace (listen w) = trace w ++ l.
Proof.
  unfold listen, rf2xx_reg_read. cbn [trace emit set_rf2xx_state].
  destruct (pa_ext_enable_extends (emit (RegRead RF2XX_REG__IRQ_STATUS) w))
    as [l Hl].
  rewrite Hl. cbn [trace emit]. eexists. rewrite <- !app_assoc. reflexivity.
Qed.

Lemma restart_extends (w : driver) :
  exists l, trace (restart w) = trace w ++ l.
Proof.
  unfold restart. destruct (idle_extends w) as [l1 H1].
  destruct (negb (rf2xx_on (idle w) =? 0)).
  - destruct (listen_extends (idle w)) as [l2 H2].
    exists (l1 ++ l2). rewrite H2, H1, app_assoc. reflexivity.
  - exists l1. exact H1.
Qed.

Lemma irq_handler_extends (w : driver) :
  exists l, trace (irq_handler w) = trace w ++ l.
Proof.
  unfold irq_handler, irq_rx_start, irq_trx_end, rf2xx_reg_read.
  destruct (rf2xx_state w);
    try (exists []; symmetry; apply app_nil_r);
    repeat match goal with
           | |- context [if ?c then _ else _] => destruct c
           end;
    cbn [trace emit set_rf2xx_state]; eexists; rewrite <- ?app_assoc;
    reflexivity.
Qed.

Lemma run_event_extends (e : env_event) (w : driver) :
  exists l, trace (run_event e w) = trace w ++ l.
Proof.
  destruct e; simpl.
  - apply irq_handler_extends.
  - unfold rf2xx_wr_on, rf2xx_wr_on_critical.
    destruct (rf2xx_on w =? 0);
      [| exists []; symmetry; apply app_nil_r].
    destruct (rf2xx_state_eqb _ RF_IDLE); cbn [snd];
      [| exists []; symmetry; apply app_nil_r].
    apply (listen_extends (set_rf2xx_on 1 w)).
  - unfold rf2xx_wr_off, rf2xx_wr_off_critical.
    destruct (negb (rf2xx_on w =? 0));
      [| exists []; symmetry; apply app_nil_r].
    destruct (rf2xx_state_eqb _ RF_LISTEN); cbn [snd];
      [| exists []; symmetry; apply app_nil_r].
    apply (idle_extends (set_rf2xx_state RF_BUSY (set_rf2xx_on 0 w))).
Qed.

Lemma wait_tx_end_extends (sched : list env_event) (w w' : driver) :
  wait_tx_end sched w = Some w' -> exists l, trace w' = trace w ++ l.
Proof.
  revert w. induction sched as [| e sched IH]; intros w H; simpl in H;
    destruct (rf2xx_state_eqb (rf2xx_state w) RF_TX);
    try discriminate H;
    try (injection H as <-; exists []; symmetry; apply app_nil_r).
  destruct (IH _ H) as [l2 H2]. destruct (run_event_extends e w) as [l1 H1].
  exists (l1 ++ l2). rewrite H2, H1, app_assoc. reflexivity.
Qed.

(** The wait for the end of the packet keeps the transmit buffer and
    counts no effect that the mode controller and the interrupt handler
    do not issue. *)
Lemma irq_handler_count (p : effect -> bool) (w : driver) :
  mode_silent p ->
  p (SetState RF2XX_TRX_STATE__PLL_ON) = false ->
  p ProcessPoll = false ->
  count_eff p (trace (irq_handler w)) = count_eff p (trace w).
Proof.
  intros Hp H1 H2.
  unfold irq_handler, irq_rx_start, irq_trx_end, rf2xx_reg_read.
  destruct (rf2xx_state w); try reflexivity;
    repeat match goal with
           | |- context [if ?c then _ else _] => destruct c
           end;
    repeat rewrite ?count_eff_emit, ?count_eff_set_state;
    rewrite ?H1, ?H2, ?Hp by reflexivity; rewrite ?Nat.add_0_r; reflexivity.
Qed.

Lemma run_event_count (p : effect -> bool) (e : env_event) (w : driver) :
  mode_silent p ->
  p (SetState RF2XX_TRX_STATE__PLL_ON) = false ->
  p ProcessPoll = false ->
  count_eff p (trace (run_event e w)) = count_eff p (trace w).
Proof.
  intros Hp H1 H2. destruct e; simpl.
  - apply irq_handler_count; assumption.
  - apply rf2xx_wr_on_count; assumption.
  - apply rf2xx_wr_off_count; assumption.
Qed.

Lemma wait_tx_end_count (p : effect -> bool) (sched : list env_event)
  (w w' : driver) :
  mode_silent p ->
  p (SetState RF2XX_TRX_STATE__PLL_ON) = false ->
  p ProcessPoll = false ->
  wait_tx_end sched w = Some w' ->
  count_eff p (trace w') = count_eff p (trace w).
Proof.
  intros Hp H1 H2. revert w.
  induction sched as [| e sched IH]; intros w H; simpl in H;
    destruct (rf2xx_state_eqb (rf2xx_state w) RF_TX);
    try discriminate H; try (injection H as <-; reflexivity).
  rewrite (IH _ H). apply run_event_count; assumption.
Qed.

Lemma wait_tx_end_frame (sched : list env_event) (w w' : driver) :
  wait_tx_end sched w = Some w' ->
  tx_buf w' = tx_buf w /\ tx_len w' = tx_len w.
Proof.
  revert w. induction sched as [| e sched IH]; intros w H; simpl in H;
    destruct (rf2xx_state_eqb (rf2xx_state w) RF_TX);
    try discriminate H; try (injection H as <-; split; reflexivity).
  destruct (IH _ H) as [Hb Hl]. destruct (run_event_frame e w) as [Hb' Hl'].
  split; congruence.
Qed.

(** The PLL wait only reads the status register. *)
Lemma pll_wait_trace (fuel : nat) (time : Z) (w w' : driver)
  (v : pll_verdict) :
  pll_wait fuel time w = Some (v, w') ->
  exists n, (1 <= n <= fuel)%nat /\
    w' = mkDriver (rf2xx_state w) (rf2xx_on w) (cca_pending w) (tx_buf w)
           (tx_len w) (trace w ++ repeat GetStatus n).
Proof.
  revert w. induction fuel as [| fuel IH]; intros w H; simpl in H.
  - discriminate H.
  - assert (Hone : emit GetStatus w
             = mkDriver (rf2xx_state w) (rf2xx_on w) (cca_pending w)
                 (tx_buf w) (tx_len w) (trace w ++ repeat GetStatus 1))
      by reflexivity.
    destruct (RTIMER_CLOCK_LT time _).
    + injection H as _ <-. exists 1%nat. split; [lia | exact Hone].
    + destruct (_ =? RF2XX_TRX_STATUS__PLL_ON).
      * injection H as _ <-. exists 1%nat. split; [lia | exact Hone].
      * destruct (IH _ H) as (n & Hn & ->). exists (S n). split; [lia |].
        cbn [rf2xx_state rf2xx_on cca_pending tx_buf tx_len trace emit].
        rewrite <- app_assoc. reflexivity.
Qed.

Lemma count_eff_app (p : effect -> bool) (t l : list effect) :
  count_eff p (t ++ l) = (count_eff p t + count_eff p l)%nat.
Proof. unfold count_eff. rewrite filter_app, length_app. reflexivity. Qed.

Lemma count_eff_repeat_none (p : effect -> bool) (e : effect) (n : nat) :
  p e = false -> count_eff p (repeat e n) = 0%nat.
Proof.
  intro H. induction n as [| n IH]; [reflexivity |].
  unfold count_eff in *. simpl. rewrite H. exact IH.
Qed.

(** The steps of [transmit] before the PLL wait. *)
Lemma tx_enter_frame (flag : bool) (w : driver) :
  rf2xx_on (snd (tx_enter flag w)) = rf2xx_on w /\
  tx_buf (snd (tx_enter flag w)) = tx_buf w /\
  tx_len (snd (tx_enter flag w)) = tx_len w.
Proof.
  unfold tx_enter, rf2xx_reg_read. cbn [snd].
  destruct (pa_ext_enable_frame
              (emit (RegRead RF2XX_REG__IRQ_STATUS)
                 (if flag then idle w else w))) as (_ & Ho & Hb & Hl).
  rewrite Ho, Hb, Hl. cbn [rf2xx_on tx_buf tx_len emit].
  destruct flag; [| repeat split; reflexivity].
  destruct (idle_frame w) as (_ & Ho' & Hb' & Hl'). repeat split; assumption.
Qed.

Lemma tx_enter_count (p : effect -> bool) (flag : bool) (w : driver) :
  mode_silent p ->
  count_eff p (trace (snd (tx_enter flag w))) = count_eff p (trace w).
Proof.
  intro Hp. unfold tx_enter, rf2xx_reg_read. cbn [snd].
  rewrite pa_ext_enable_count, count_eff_emit by assumption.
  rewrite Hp by reflexivity. rewrite Nat.add_0_r.
  destruct flag; [apply idle_count; assumption | reflexivity].
Qed.

Lemma tx_enter_extends (flag : bool) (w : driver) :
  exists l, trace (snd (tx_enter flag w)) = trace w ++ l.
Proof.
  unfold tx_enter, rf2xx_reg_read. cbn [snd].
  destruct (pa_ext_enable_extends
              (emit (RegRead RF2XX_REG__IRQ_STATUS)
                 (if flag then idle w else w))) as [l2 H2].
  rewrite H2. cbn [trace emit].
  destruct flag.
  - destruct (idle_extends w) as [l1 H1]. rewrite H1.
    eexists. rewrite <- !app_assoc. reflexivity.
  - eexists. rewrite <- !app_assoc. reflexivity.
Qed.

(** The two ways [transmit] ends once it holds the state RF_TX. *)
Lemma tx_run_inv (fuel : nat) (sched : list env_event) (flag : bool)
  (wtx : driver) (ret : radio_tx_t) (w' : driver) :
  rf2xx_state wtx = RF_TX ->
  tx_run fuel sched flag wtx = Some (ret, w') ->
  exists v w2,
    pll_wait fuel (fst (tx_enter flag wtx)) (snd (tx_enter flag wtx))
      = Some (v, w2) /\
    ((v = PllTimeout /\ ret = RADIO_TX_ERR /\ w' = restart w2) \/
     (v = PllReady /\ ret = RADIO_TX_OK /\
      exists w3, wait_tx_end sched (tx_start w2) = Some w3 /\
                 w' = restart w3)).
Proof.
  intros Hst H. unfold tx_run in H.
  pose proof (tx_enter_state flag wtx) as Henter.
  destruct (tx_enter flag wtx) as [time w1]. cbn [fst snd] in *.
  destruct (pll_wait fuel time w1) as [[[|] w2] |] eqn:Hpll;
    try discriminate H.
  - destruct (wait_tx_end sched (tx_start w2)) as [w3 |] eqn:Hwait;
      try discriminate H.
    injection H as <- <-.
    exists PllReady, w2. split; [reflexivity | right].
    split; [reflexivity | split; [| exists w3; split; [exact Hwait |]]];
      try reflexivity.
    assert (Htx : rf2xx_state (tx_start w2) = RF_TX).
    { apply pll_wait_state in Hpll. cbn [tx_start rf2xx_state emit].
      congruence. }
    unfold tx_result. rewrite (wait_tx_end_done _ _ _ Htx Hwait).
    reflexivity.
  - injection H as <- <-.
    exists PllTimeout, w2. split; [reflexivity | left].
    repeat split; reflexivity.
Qed.

(** [transmit] is [tx_run] when the length matches and the state is Idle
    or Listening. *)
Lemma rf2xx_wr_transmit_runs (fuel : nat) (sched : list env_event)
  (transmit_len : Z) (w : driver) :
  rf2xx_state w = RF_IDLE \/ rf2xx_state w = RF_LISTEN ->
  tx_len w = transmit_len ->
  rf2xx_wr_transmit fuel sched transmit_len w
  = tx_run fuel sched (rf2xx_state_eqb (rf2xx_state w) RF_LISTEN)
      (set_rf2xx_state RF_TX w).
Proof.
  intros Hst Hlen. unfold rf2xx_wr_transmit. rewrite Hlen, Z.eqb_refl.
  destruct Hst as [-> | ->]; reflexivity.
Qed.

(** ** The transmit path *)

(** X1.  With interrupts and [on]/[off] calls as the only things that run
    during the wait, a [transmit] that saw PLL_ON never reports an error:
    from Idle or Listening with the prepared length, it returns TxError
    exactly when the PLL wait timed out and TxOk exactly when the PLL wait
    saw PLL_ON. *)
Theorem transmit_error_means_pll_timeout (fuel : nat)
  (sched : list env_event) (transmit_len : Z) (w : driver)
  (ret : radio_tx_t) (w' : driver) :
  rf2xx_state w = RF_IDLE \/ rf2xx_state w = RF_LISTEN ->
  tx_len w = transmit_len ->
  rf2xx_wr_transmit fuel sched transmit_len w = Some (ret, w') ->
  let te := tx_enter (rf2xx_state_eqb (rf2xx_state w) RF_LISTEN)
              (set_rf2xx_state RF_TX w) in
  exists v w2,
    pll_wait fuel (fst te) (snd te) = Some (v, w2) /\
    (ret = RADIO_TX_ERR <-> v = PllTimeout) /\
    (ret = RADIO_TX_OK <-> v = PllReady).
Proof.
  intros Hst Hlen H te. rewrite rf2xx_wr_transmit_runs in H by assumption.
  apply tx_run_inv in H; [| reflexivity].
  destruct H as (v & w2 & Hpll & [(-> & -> & _) | (-> & -> & _)]);
    eexists; exists w2; (split; [exact Hpll |]); split; split;
    intro; try reflexivity; discriminate.
Qed.

(** X2.  In every state and for every length, a [transmit] that returns has
    raised SLP_TR once and written the FIFO twice if it returns TxOk, and
    has not raised SLP_TR nor written the FIFO at all if it returns TxError
    or TxCollision. *)
Theorem transmit_sends_iff_ok (fuel : nat) (sched : list env_event)
  (transmit_len : Z) (w : driver) (ret : radio_tx_t) (w' : driver) :
  rf2xx_wr_transmit fuel sched transmit_len w = Some (ret, w') ->
  count_eff is_slp_tr_set (trace w')
  = (count_eff is_slp_tr_set (trace w)
     + match ret with RADIO_TX_OK => 1 | _ => 0 end)%nat /\
  count_eff is_fifo_write (trace w')
  = (count_eff is_fifo_write (trace w)
     + match ret with RADIO_TX_OK => 2 | _ => 0 end)%nat.
Proof.
  intro H.
  assert (Hrun : forall flag,
    tx_run fuel sched flag (set_rf2xx_state RF_TX w) = Some (ret, w') ->
    count_eff is_slp_tr_set (trace w')
    = (count_eff is_slp_tr_set (trace w)
       + match ret with RADIO_TX_OK => 1 | _ => 0 end)%nat /\
    count_eff is_fifo_write (trace w')
    = (count_eff is_fifo_write (trace w)
       + match ret with RADIO_TX_OK => 2 | _ => 0 end)%nat).
  { intros flag Hr. apply tx_run_inv in Hr; [| reflexivity].
    destruct Hr as (v & w2 & Hpll & Hcase).
    assert (Hw2 : forall p, mode_silent p -> p GetStatus = false ->
              count_eff p (trace w2) = count_eff p (trace w)).
    { intros p Hp Hg. apply pll_wait_trace in Hpll.
      destruct Hpll as (n & _ & ->). cbn [trace].
      rewrite count_eff_app, count_eff_repeat_none by assumption.
      rewrite Nat.add_0_r. rewrite tx_enter_count by assumption.
      reflexivity. }
    destruct Hcase as [(_ & -> & ->) | (_ & -> & w3 & Hwait & ->)].
    - rewrite !restart_count
        by first [exact silent_slp_tr_set | exact silent_fifo_write].
      rewrite !Hw2
        by first [reflexivity | exact silent_slp_tr_set
                  | exact silent_fifo_write].
      rewrite !Nat.add_0_r. split; reflexivity.
    - rewrite !restart_count
        by first [exact silent_slp_tr_set | exact silent_fifo_write].
      rewrite (wait_tx_end_count is_slp_tr_set _ _ _ silent_slp_tr_set
                 eq_refl eq_refl Hwait).
      rewrite (wait_tx_end_count is_fifo_write _ _ _ silent_fifo_write
                 eq_refl eq_refl Hwait).
      unfold tx_start. rewrite !count_eff_emit. cbn [is_slp_tr_set
        is_fifo_write].
      rewrite !Hw2
        by first [reflexivity | exact silent_slp_tr_set
                  | exact silent_fifo_write].
      split; lia. }
  unfold rf2xx_wr_transmit in H.
  destruct (negb (tx_len w =? transmit_len)).
  - injection H as <- <-. rewrite !Nat.add_0_r. split; reflexivity.
  - destruct (rf2xx_state w); try (apply (Hrun _ H));
      injection H as <- <-; rewrite !Nat.add_0_r; split; reflexivity.
Qed.

(** [prepare] on a length within the capacity. *)
Lemma rf2xx_wr_prepare_fits (payload : list Z) (payload_len : Z)
  (w : driver) :
  0 <= payload_len <= RF2XX_MAX_PAYLOAD ->
  rf2xx_wr_prepare payload payload_len w
  = (0, set_tx_buf (memcpy (tx_buf w) payload payload_len)
          (set_tx_len payload_len w)).
Proof.
  intro Hr. unfold rf2xx_wr_prepare, RF2XX_MAX_PAYLOAD in *.
  destruct (Z.gtb_spec payload_len 125); [lia |].
  assert (Hu8 : to_u8 payload_len = payload_len)
    by (unfold to_u8; apply Z.mod_small; lia).
  rewrite Hu8. reflexivity.
Qed.

(** X3.  [send] of a payload above the capacity returns TxError without a
    chip command and without touching the state, the flag or the buffer;
    it resets the prepared length to 0, so that a later [transmit] of any
    non-zero length is refused with TxError. *)
Theorem send_too_large (fuel : nat) (sched : list env_event)
  (payload : list Z) (payload_len : Z) (w : driver) :
  RF2XX_MAX_PAYLOAD < payload_len ->
  rf2xx_wr_send fuel sched payload payload_len w
    = Some (RADIO_TX_ERR, set_tx_len 0 w) /\
  (forall fuel' sched' n,
     n <> 0 ->
     rf2xx_wr_transmit fuel' sched' n (set_tx_len 0 w)
       = Some (RADIO_TX_ERR, set_tx_len 0 w)).
Proof.
  intro Hbig. split.
  - unfold rf2xx_wr_send, rf2xx_wr_prepare.
    destruct (Z.gtb_spec payload_len RF2XX_MAX_PAYLOAD); [reflexivity | lia].
  - intros fuel' sched' n Hn. unfold rf2xx_wr_transmit.
    cbn [tx_len set_tx_len].
    destruct (Z.eqb_spec 0 n); [congruence | reflexivity].
Qed.

(** X4.  [send] while another operation holds the radio (any state but Idle
    and Listening) returns TxCollision and leaves state, flag and chip
    alone, but it has already replaced the prepared frame: the recorded
    length is the new one and the buffer starts with the new payload. *)
Theorem send_busy_overwrites_frame (fuel : nat) (sched : list env_event)
  (payload : list Z) (payload_len : Z) (w : driver) :
  0 <= payload_len <= RF2XX_MAX_PAYLOAD ->
  payload_len <= Z.of_nat (length payload) ->
  rf2xx_state w <> RF_IDLE ->
  rf2xx_state w <> RF_LISTEN ->
  exists w',
    rf2xx_wr_send fuel sched payload payload_len w
      = Some (RADIO_TX_COLLISION, w') /\
    rf2xx_state w' = rf2xx_state w /\
    rf2xx_on w' = rf2xx_on w /\
    trace w' = trace w /\
    tx_len w' = payload_len /\
    firstn (Z.to_nat payload_len) (tx_buf w')
      = firstn (Z.to_nat payload_len) payload.
Proof.
  intros Hr Hp Hidle Hlisten.
  exists (set_tx_buf (memcpy (tx_buf w) payload payload_len)
            (set_tx_len payload_len w)).
  split.
  - unfold rf2xx_wr_send. rewrite rf2xx_wr_prepare_fits by assumption.
    cbn [negb Z.eqb]. unfold rf2xx_wr_transmit.
    cbn [tx_len rf2xx_state set_tx_buf set_tx_len].
    rewrite Z.eqb_refl. cbn [negb].
    destruct (rf2xx_state w); try reflexivity; contradiction.
  - repeat split. apply memcpy_firstn. exact Hp.
Qed.

(** X5.  A [send] from Idle or Listening that returns TxOk has issued, after
    what it did before, the enabling of the interrupt, the frame length
    [payload_len + 2], exactly the first [payload_len] bytes of the
    payload, and SLP_TR, in this order; and it ends at the baseline of the
    flag. *)
Theorem send_puts_payload_on_air (fuel : nat) (sched : list env_event)
  (payload : list Z) (payload_len : Z) (w w' : driver) :
  0 <= payload_len <= RF2XX_MAX_PAYLOAD ->
  payload_len <= Z.of_nat (length payload) ->
  rf2xx_state w = RF_IDLE \/ rf2xx_state w = RF_LISTEN ->
  rf2xx_wr_send fuel sched payload payload_len w = Some (RADIO_TX_OK, w') ->
  (exists pre post,
     trace w'
     = trace w ++ pre
       ++ [IrqEnable; FifoWriteFirst (payload_len + 2);
           FifoWriteRemainingAsync (firstn (Z.to_nat payload_len) payload);
           SlpTrSet]
       ++ post) /\
  rf2xx_state w' = baseline w'.
Proof.
  intros Hr Hp Hst H. unfold rf2xx_wr_send in H.
  rewrite rf2xx_wr_prepare_fits in H by assumption. cbn [negb Z.eqb] in H.
  set (w0 := set_tx_buf (memcpy (tx_buf w) payload payload_len)
               (set_tx_len payload_len w)) in H.
  rewrite rf2xx_wr_transmit_runs in H by (try exact Hst; reflexivity).
  apply tx_run_inv in H; [| reflexivity].
  destruct H as (v & w2 & Hpll & [(_ & Hret & _) | (_ & _ & w3 & Hwait & ->)]);
    [discriminate Hret |].
  split; [| apply restart_baseline].
  set (flag := rf2xx_state_eqb (rf2xx_state w0) RF_LISTEN) in Hpll.
  set (wtx := set_rf2xx_state RF_TX w0) in Hpll.
  destruct (tx_enter_extends flag wtx) as [l1 H1].
  destruct (tx_enter_frame flag wtx) as (_ & Hbuf & Hlen).
  apply pll_wait_trace in Hpll. destruct Hpll as (n & _ & Hw2).
  destruct (wait_tx_end_extends _ _ _ Hwait) as [l3 H3].
  destruct (restart_extends w3) as [l4 H4].
  exists (l1 ++ repeat GetStatus n), (l3 ++ l4).
  rewrite H4, H3. rewrite Hw2. unfold tx_start.
  cbn [trace emit tx_len tx_buf]. rewrite Hbuf, Hlen, H1.
  cbn [wtx w0 trace tx_len tx_buf set_rf2xx_state set_tx_buf set_tx_len].
  rewrite memcpy_firstn by exact Hp.
  rewrite <- !app_assoc. reflexivity.
Qed.

(** ** The receive path *)

(** The frame drain on a frame whose CRC is bad. *)
Lemma read_crc_bad (buf : list Z) (buf_len : Z) (w : driver) :
  Z.land (to_u8 (bus_read (trace w) (RegRead RF2XX_REG__PHY_RSSI)))
         RF2XX_PHY_RSSI_MASK__RX_CRC_VALID = 0 ->
  read buf buf_len w = (0, buf, emit (RegRead RF2XX_REG__PHY_RSSI) w).
Proof.
  intro Hcrc. unfold read, rf2xx_reg_read. rewrite Hcrc. reflexivity.
Qed.

(** What every frame drain guarantees: the length returned is 0 or at
    most [buf_len], the buffer is only overwritten below that length, and
    the driver's variables are left alone. *)
Lemma read_result (buf : list Z) (buf_len : Z) (w : driver) :
  let r := read buf buf_len w in
  (fst (fst r) = 0 \/ 0 < fst (fst r) <= buf_len) /\
  fst (fst r) < 256 /\
  skipn (Z.to_nat (fst (fst r))) (snd (fst r))
    = skipn (Z.to_nat (fst (fst r))) buf /\
  (fst (fst r) <= Z.of_nat (length buf) ->
   length (snd (fst r)) = length buf) /\
  rf2xx_state (snd r) = rf2xx_state w /\
  rf2xx_on (snd r) = rf2xx_on w /\
  tx_buf (snd r) = tx_buf w /\
  tx_len (snd r) = tx_len w.
Proof.
  intro r. subst r.
  destruct (Z.eq_dec
    (Z.land (to_u8 (bus_read (trace w) (RegRead RF2XX_REG__PHY_RSSI)))
            RF2XX_PHY_RSSI_MASK__RX_CRC_VALID) 0) as [Hbad | Hok].
  - rewrite (read_crc_bad buf buf_len w Hbad). cbn [fst snd].
    repeat split; try reflexivity; auto; lia.
  - rewrite (read_crc_valid buf buf_len w Hok).
    set (len := to_u8 _).
    pose proof (to_u8_range
      (to_u8 (bus_read (trace (emit (RegRead RF2XX_REG__PHY_RSSI) w))
                FifoReadFirst) - 2)) as Hlen.
    fold len in Hlen.
    destruct (Z.gtb_spec len buf_len) as [Hbig | Hfit]; cbn [fst snd].
    + repeat split; try reflexivity; auto; lia.
    + repeat split; try reflexivity.
      * lia.
      * lia.
      * apply memcpy_skipn. rewrite fifo_bytes_length. lia.
      * intro Hroom. unfold memcpy.
        rewrite length_app, length_skipn, firstn_all2
          by (rewrite fifo_bytes_length; lia).
        rewrite fifo_bytes_length. lia.
Qed.

(** X6.  The public read never returns more than the buffer length it was
    given (taken modulo 256), writes the buffer only below the length it
    returns, keeps the size of a buffer that is as long as announced, and
    leaves no packet pending. *)
Theorem wr_read_within_buffer (buf : list Z) (buf_len : Z) (w : driver) :
  let r := rf2xx_wr_read buf buf_len w in
  0 <= fst (fst r) <= to_u8 buf_len /\
  (0 <= buf_len -> fst (fst r) <= buf_len) /\
  skipn (Z.to_nat (fst (fst r))) (snd (fst r))
    = skipn (Z.to_nat (fst (fst r))) buf /\
  (to_u8 buf_len <= Z.of_nat (length buf) ->
   length (snd (fst r)) = length buf) /\
  rf2xx_wr_pending_packet (snd r) = 0.
Proof.
  intro r. subst r. unfold rf2xx_wr_read.
  pose proof (to_u8_range buf_len) as Hu8.
  assert (Hle : 0 <= buf_len -> to_u8 buf_len <= buf_len).
  { intro H. unfold to_u8. apply Z.mod_le; lia. }
  destruct (rf2xx_state_eqb (rf2xx_state w) RF_RX_DONE) eqn:E; cbn [negb].
  - pose proof (read_result buf (to_u8 buf_len)
                  (set_rf2xx_state RF_RX_READ w))
      as (Hlen & _ & Hskip & Hsize & _).
    destruct (read buf (to_u8 buf_len) (set_rf2xx_state RF_RX_READ w))
      as [[len buf'] w'].
    cbn [fst snd] in *.
    split; [lia | split; [| split; [exact Hskip | split]]].
    + intro H. specialize (Hle H). lia.
    + intro Hroom. apply Hsize. lia.
    + unfold rf2xx_wr_pending_packet. rewrite restart_baseline.
      unfold baseline. destruct (rf2xx_on (restart w') =? 0); reflexivity.
  - cbn [fst snd].
    split; [lia | split; [| split; [reflexivity | split]]].
    + intro H. exact H.
    + reflexivity.
    + unfold rf2xx_wr_pending_packet. rewrite E. reflexivity.
Qed.

(** X7.  The public read is a poll.  With no packet pending it returns 0 and
    changes nothing at all.  With a packet pending it ends at the baseline
    of the flag, and the packet is gone: an immediate second read returns 0
    and changes nothing. *)
Theorem wr_read_consumes_pending (buf : list Z) (buf_len : Z) (w : driver) :
  (rf2xx_wr_pending_packet w = 0 ->
   rf2xx_wr_read buf buf_len w = (0, buf, w)) /\
  (rf2xx_wr_pending_packet w = 1 ->
   let w' := snd (rf2xx_wr_read buf buf_len w) in
   rf2xx_state w' = baseline w' /\
   rf2xx_on w' = rf2xx_on w /\
   forall buf2 buf_len2,
     rf2xx_wr_read buf2 buf_len2 w' = (0, buf2, w')).
Proof.
  unfold rf2xx_wr_pending_packet, rf2xx_wr_read.
  destruct (rf2xx_state_eqb (rf2xx_state w) RF_RX_DONE) eqn:E; cbn [negb];
    split; intro H; try discriminate H; try reflexivity.
  pose proof (read_result buf (to_u8 buf_len)
                (set_rf2xx_state RF_RX_READ w))
    as (_ & _ & _ & _ & _ & Hon & _).
  destruct (read buf (to_u8 buf_len) (set_rf2xx_state RF_RX_READ w))
    as [[len buf'] w1].
  cbn [fst snd] in *.
  assert (Hbase : rf2xx_state (restart w1) = baseline (restart w1))
    by apply restart_baseline.
  split; [exact Hbase | split].
  - rewrite (proj1 (restart_frame w1)). exact Hon.
  - intros buf2 buf_len2. rewrite Hbase. unfold baseline.
    destruct (rf2xx_on (restart w1) =? 0); reflexivity.
Qed.

(** X8.  The FIFO is read exactly when the CRC is valid.  With a packet
    pending and a bad CRC, the public read returns 0, leaves the buffer
    untouched and issues no FIFO read; with a valid CRC it issues two (the
    length byte, then the payload or the zero-length drain). *)
Theorem wr_read_fifo_access (buf : list Z) (buf_len : Z) (w : driver) :
  rf2xx_state w = RF_RX_DONE ->
  let rssi := to_u8 (bus_read (trace w) (RegRead RF2XX_REG__PHY_RSSI)) in
  let r := rf2xx_wr_read buf buf_len w in
  (Z.land rssi RF2XX_PHY_RSSI_MASK__RX_CRC_VALID = 0 ->
   fst r = (0, buf) /\
   count_eff is_fifo_read (trace (snd r))
   = count_eff is_fifo_read (trace w)) /\
  (Z.land rssi RF2XX_PHY_RSSI_MASK__RX_CRC_VALID <> 0 ->
   count_eff is_fifo_read (trace (snd r))
   = (count_eff is_fifo_read (trace w) + 2)%nat).
Proof.
  intros Hst rssi r. subst r. unfold rf2xx_wr_read.
  rewrite Hst. cbn [rf2xx_state_eqb negb].
  split; intro Hcrc.
  - rewrite (read_crc_bad buf (to_u8 buf_len)
               (set_rf2xx_state RF_RX_READ w) Hcrc).
    cbn [fst snd]. split; [reflexivity |].
    rewrite restart_count by exact silent_fifo_read.
    rewrite count_eff_emit. cbn [is_fifo_read].
    rewrite Nat.add_0_r. reflexivity.
  - rewrite (read_crc_valid buf (to_u8 buf_len)
               (set_rf2xx_state RF_RX_READ w) Hcrc).
    destruct (_ >? to_u8 buf_len); cbn [fst snd];
      rewrite restart_count by exact silent_fifo_read;
      rewrite !count_eff_emit; cbn [is_fifo_read];
      rewrite count_eff_set_state; lia.
Qed.

(** ** The interrupt handler and the state machine *)

(** X9.  Whatever the latch holds, the handler moves the state only along
    TX to TX_DONE, LISTEN to RX, LISTEN to RX_DONE or RX to RX_DONE (or not
    at all); it never touches the flag or the transmit buffer; and it polls
    the worker process once exactly when it enters RX_DONE, never
    otherwise. *)
Theorem irq_handler_transitions (w : driver) :
  irq_step (rf2xx_state w) (rf2xx_state (irq_handler w)) = true /\
  rf2xx_on (irq_handler w) = rf2xx_on w /\
  tx_buf (irq_handler w) = tx_buf w /\
  tx_len (irq_handler w) = tx_len w /\
  count_eff is_process_poll (trace (irq_handler w))
  = (count_eff is_process_poll (trace w)
     + if rf2xx_state_eqb (rf2xx_state (irq_handler w)) RF_RX_DONE
          && negb (rf2xx_state_eqb (rf2xx_state w) RF_RX_DONE)
       then 1 else 0)%nat.
Proof.
  destruct (irq_handler_frame w) as (Hon & Hbuf & Hlen).
  assert (Hcases :
    (rf2xx_state (irq_handler w) = rf2xx_state w /\
     trace (irq_handler w) = trace w) \/
    (rf2xx_state (irq_handler w) = rf2xx_state w /\
     trace (irq_handler w) = trace w ++ [RegRead RF2XX_REG__IRQ_STATUS]) \/
    (rf2xx_state w = RF_TX /\ rf2xx_state (irq_handler w) = RF_TX_DONE /\
     trace (irq_handler w) = trace w ++ [RegRead RF2XX_REG__IRQ_STATUS]) \/
    (rf2xx_state w = RF_LISTEN /\ rf2xx_state (irq_handler w) = RF_RX /\
     trace (irq_handler w) = trace w ++ [RegRead RF2XX_REG__IRQ_STATUS]) \/
    ((rf2xx_state w = RF_LISTEN \/ rf2xx_state w = RF_RX) /\
     rf2xx_state (irq_handler w) = RF_RX_DONE /\
     trace (irq_handler w)
     = trace w ++ [RegRead RF2XX_REG__IRQ_STATUS;
                   SetState RF2XX_TRX_STATE__PLL_ON; ProcessPoll])).
  { unfold irq_handler, irq_rx_start, irq_trx_end, rf2xx_reg_read.
    destruct (rf2xx_state w) eqn:Hst;
      try (left; split; [exact Hst | reflexivity]);
      cbn [rf2xx_state_eqb]; rewrite ?andb_false_r, ?andb_true_r;
      right.
    - destruct (negb (Z.land _ RF2XX_IRQ_STATUS_MASK__TRX_END =? 0)).
      + right. left. repeat split; reflexivity.
      + left. split; [exact Hst | reflexivity].
    - destruct (negb (Z.land _ RF2XX_IRQ_STATUS_MASK__RX_START =? 0));
        destruct (negb (Z.land _ RF2XX_IRQ_STATUS_MASK__TRX_END =? 0));
        cbn [rf2xx_state trace emit set_rf2xx_state].
      + right. right. right. split; [left; reflexivity |].
        split; [reflexivity |]. rewrite <- !app_assoc. reflexivity.
      + right. right. left. repeat split; reflexivity.
      + right. right. right. split; [left; reflexivity |].
        split; [reflexivity |]. rewrite <- !app_assoc. reflexivity.
      + left. split; [exact Hst | reflexivity].
    - destruct (negb (Z.land _ RF2XX_IRQ_STATUS_MASK__TRX_END =? 0));
        cbn [rf2xx_state trace emit set_rf2xx_state].
      + right. right. right. split; [right; reflexivity |].
        split; [reflexivity |]. rewrite <- !app_assoc. reflexivity.
      + left. split; [exact Hst | reflexivity]. }
  split; [| split; [exact Hon | split; [exact Hbuf | split; [exact Hlen |]]]].
  - destruct Hcases as [[-> _] | [[-> _] | [(-> & -> & _) |
      [(-> & -> & _) | ([-> | ->] & -> & _)]]]];
      try reflexivity; destruct (rf2xx_state w); reflexivity.
  - destruct Hcases as [[-> ->] | [[-> ->] | [(-> & -> & ->) |
      [(-> & -> & ->) | (Hs & -> & ->)]]]];
      rewrite ?count_eff_app; cbn [rf2xx_state_eqb andb negb];
      try (destruct (rf2xx_state w); cbn; lia).
    destruct Hs as [-> | ->]; cbn; lia.
Qed.

(** X10.  A complete reception.  From Listening, an interrupt that reports
    receive-start alone makes [receiving_packet] 1 with nothing pending and
    nothing to read yet; a following interrupt that reports transfer-end
    makes [pending_packet] 1 and [receiving_packet] 0; the read that
    follows ends at the baseline of the flag with nothing pending, and,
    when the CRC is valid and the payload fits, returns the payload
    length. *)
Theorem receive_sequence (buf : list Z) (buf_len : Z) (w : driver) :
  let latch t := to_u8 (bus_read t (RegRead RF2XX_REG__IRQ_STATUS)) in
  let w1 := irq_handler w in
  let w2 := irq_handler w1 in
  let r := rf2xx_wr_read buf buf_len w2 in
  let t3 := trace w2 ++ [RegRead RF2XX_REG__PHY_RSSI] in
  let len := to_u8 (to_u8 (bus_read t3 FifoReadFirst) - 2) in
  rf2xx_state w = RF_LISTEN ->
  Z.land (latch (trace w)) RF2XX_IRQ_STATUS_MASK__RX_START <> 0 ->
  Z.land (latch (trace w)) RF2XX_IRQ_STATUS_MASK__TRX_END = 0 ->
  Z.land (latch (trace w1)) RF2XX_IRQ_STATUS_MASK__TRX_END <> 0 ->
  (rf2xx_wr_receiving_packet w1 = 1 /\
   rf2xx_wr_pending_packet w1 = 0 /\
   rf2xx_wr_read buf buf_len w1 = (0, buf, w1)) /\
  (rf2xx_wr_receiving_packet w2 = 0 /\
   rf2xx_wr_pending_packet w2 = 1) /\
  (rf2xx_state (snd r) = baseline (snd r) /\
   rf2xx_wr_pending_packet (snd r) = 0 /\
   rf2xx_wr_receiving_packet (snd r) = 0) /\
  (Z.land (to_u8 (bus_read (trace w2) (RegRead RF2XX_REG__PHY_RSSI)))
          RF2XX_PHY_RSSI_MASK__RX_CRC_VALID <> 0 ->
   len <= to_u8 buf_len ->
   fst (fst r) = len).
Proof.
  intros latch w1 w2 r t3 len Hst Hstart Hnoend Hend.
  assert (H1 : w1 = set_rf2xx_state RF_RX
                     (emit (RegRead RF2XX_REG__IRQ_STATUS) w)).
  { subst w1. unfold irq_handler. rewrite Hst.
    unfold rf2xx_reg_read, irq_rx_start, irq_trx_end. fold (latch (trace w)).
    destruct (Z.eqb_spec (Z.land (latch (trace w))
                RF2XX_IRQ_STATUS_MASK__RX_START) 0); [contradiction |].
    cbn [negb andb rf2xx_state_eqb]. rewrite Hnoend. reflexivity. }
  assert (Hs1 : rf2xx_state w1 = RF_RX) by (rewrite H1; reflexivity).
  assert (H2 : w2 = emit ProcessPoll
                      (emit (SetState RF2XX_TRX_STATE__PLL_ON)
                         (set_rf2xx_state RF_RX_DONE
                            (emit (RegRead RF2XX_REG__IRQ_STATUS) w1)))).
  { subst w2. unfold irq_handler. rewrite Hs1.
    unfold rf2xx_reg_read, irq_rx_start, irq_trx_end. fold (latch (trace w1)).
    rewrite andb_false_r.
    destruct (Z.eqb_spec (Z.land (latch (trace w1))
                RF2XX_IRQ_STATUS_MASK__TRX_END) 0); [contradiction |].
    reflexivity. }
  assert (Hs2 : rf2xx_state w2 = RF_RX_DONE) by (rewrite H2; reflexivity).
  split; [| split; [| split]].
  - unfold rf2xx_wr_receiving_packet, rf2xx_wr_pending_packet, rf2xx_wr_read.
    rewrite Hs1. repeat split; reflexivity.
  - unfold rf2xx_wr_receiving_packet, rf2xx_wr_pending_packet.
    rewrite Hs2. split; reflexivity.
  - subst r. unfold rf2xx_wr_read. rewrite Hs2. cbn [rf2xx_state_eqb negb].
    destruct (read buf (to_u8 buf_len) (set_rf2xx_state RF_RX_READ w2))
      as [[n buf'] w3].
    cbn [snd].
    unfold rf2xx_wr_receiving_packet, rf2xx_wr_pending_packet.
    rewrite restart_baseline. unfold baseline.
    destruct (rf2xx_on (restart w3) =? 0); repeat split; reflexivity.
  - intros Hcrc Hfit. subst r. unfold rf2xx_wr_read. rewrite Hs2.
    cbn [rf2xx_state_eqb negb].
    rewrite (read_crc_valid buf (to_u8 buf_len)
               (set_rf2xx_state RF_RX_READ w2) Hcrc).
    cbn [trace set_rf2xx_state emit]. fold t3. fold len.
    destruct (Z.gtb_spec len (to_u8 buf_len)); [lia | reflexivity].
Qed.

(** ** The mode controller *)

(** X11.  [on] always leaves the flag set and [off] always leaves it clear.
    They act on the chip and on the state only from Idle, respectively from
    Listening; in every other state they change nothing but the flag, and
    the next [restart] resolves to Listening after [on] and to Idle after
    [off]. *)
Theorem on_off_record_intent (w : driver) :
  rf2xx_on (snd (rf2xx_wr_on w)) <> 0 /\
  rf2xx_on (snd (rf2xx_wr_off w)) = 0 /\
  (rf2xx_state w <> RF_IDLE ->
   rf2xx_state (snd (rf2xx_wr_on w)) = rf2xx_state w /\
   trace (snd (rf2xx_wr_on w)) = trace w) /\
  (rf2xx_state w <> RF_LISTEN ->
   rf2xx_state (snd (rf2xx_wr_off w)) = rf2xx_state w /\
   trace (snd (rf2xx_wr_off w)) = trace w) /\
  rf2xx_state (restart (snd (rf2xx_wr_on w))) = RF_LISTEN /\
  rf2xx_state (restart (snd (rf2xx_wr_off w))) = RF_IDLE.
Proof.
  assert (Hon : rf2xx_on (snd (rf2xx_wr_on w)) <> 0).
  { unfold rf2xx_wr_on, rf2xx_wr_on_critical.
    destruct (Z.eqb_spec (rf2xx_on w) 0) as [H0 | H0]; [| exact H0].
    destruct (rf2xx_state_eqb _ RF_IDLE); cbn [snd].
    - rewrite (proj1 (proj2 (listen_frame _))). discriminate.
    - discriminate. }
  assert (Hoff : rf2xx_on (snd (rf2xx_wr_off w)) = 0).
  { unfold rf2xx_wr_off, rf2xx_wr_off_critical.
    destruct (Z.eqb_spec (rf2xx_on w) 0) as [H0 | H0]; [exact H0 |].
    cbn [negb].
    destruct (rf2xx_state_eqb _ RF_LISTEN); cbn [snd]; [| reflexivity].
    cbn [rf2xx_on set_rf2xx_state].
    rewrite (proj1 (proj2 (idle_frame _))). reflexivity. }
  split; [exact Hon | split; [exact Hoff | split; [| split; [| split]]]].
  - intro Hst. unfold rf2xx_wr_on, rf2xx_wr_on_critical.
    destruct (rf2xx_on w =? 0); [| split; reflexivity].
    cbn [rf2xx_state set_rf2xx_on].
    destruct (rf2xx_state_eqb (rf2xx_state w) RF_IDLE) eqn:E.
    + apply rf2xx_state_eqb_eq in E. contradiction.
    + split; reflexivity.
  - intro Hst. unfold rf2xx_wr_off, rf2xx_wr_off_critical.
    destruct (negb (rf2xx_on w =? 0)); [| split; reflexivity].
    cbn [rf2xx_state set_rf2xx_on].
    destruct (rf2xx_state_eqb (rf2xx_state w) RF_LISTEN) eqn:E.
    + apply rf2xx_state_eqb_eq in E. contradiction.
    + split; reflexivity.
  - apply restart_on. exact Hon.
  - apply restart_off. exact Hoff.
Qed.

(** X12.  A driver at rest stays at rest through every call of the public
    interface made from task context: [on], [off], [prepare], [read], and
    [transmit] and [send] whenever they return; and at rest [transmit] and
    [send] never report a collision. *)
Theorem quiescent_preserved (w : driver) :
  quiescent w ->
  quiescent (snd (rf2xx_wr_on w)) /\
  quiescent (snd (rf2xx_wr_off w)) /\
  (forall payload n, quiescent (snd (rf2xx_wr_prepare payload n w))) /\
  (forall buf n, snd (rf2xx_wr_read buf n w) = w) /\
  (forall fuel sched n ret w',
     rf2xx_wr_transmit fuel sched n w = Some (ret, w') ->
     quiescent w' /\ ret <> RADIO_TX_COLLISION) /\
  (forall fuel sched payload n ret w',
     rf2xx_wr_send fuel sched payload n w = Some (ret, w') ->
     quiescent w' /\ ret <> RADIO_TX_COLLISION).
Proof.
  unfold quiescent. intro Hq.
  assert (Hst : rf2xx_state w = RF_IDLE \/ rf2xx_state w = RF_LISTEN).
  { rewrite Hq. unfold baseline. destruct (rf2xx_on w =? 0); auto. }
  assert (Htx : forall v fuel sched n ret w',
    rf2xx_state v = baseline v ->
    rf2xx_wr_transmit fuel sched n v = Some (ret, w') ->
    rf2xx_state w' = baseline w' /\ ret <> RADIO_TX_COLLISION).
  { intros v fuel sched n ret w' Hv H.
    assert (Hv' : rf2xx_state v = RF_IDLE \/ rf2xx_state v = RF_LISTEN).
    { rewrite Hv. unfold baseline. destruct (rf2xx_on v =? 0); auto. }
    destruct (Z.eq_dec (tx_len v) n) as [Hlen | Hlen].
    - rewrite rf2xx_wr_transmit_runs in H by assumption.
      apply tx_run_inv in H; [| reflexivity].
      destruct H as (? & w2 & _ & [(_ & -> & ->) | (_ & -> & w3 & _ & ->)]);
        (split; [apply restart_baseline | discriminate]).
    - unfold rf2xx_wr_transmit in H.
      destruct (Z.eqb_spec (tx_len v) n); [contradiction |].
      injection H as <- <-. split; [exact Hv | discriminate]. }
  split; [| split; [| split; [| split; [| split]]]].
  - unfold rf2xx_wr_on, rf2xx_wr_on_critical, baseline.
    destruct (Z.eqb_spec (rf2xx_on w) 0) as [H0 | H0].
    + cbn [rf2xx_state set_rf2xx_on].
      destruct (rf2xx_state_eqb (rf2xx_state w) RF_IDLE) eqn:E; cbn [snd].
      * destruct (listen_frame (set_rf2xx_on 1 w)) as (Hs & Ho & _).
        rewrite Hs, Ho. reflexivity.
      * unfold baseline in Hq. rewrite H0 in Hq. cbn in Hq.
        rewrite Hq in E. discriminate E.
    + cbn [snd]. exact Hq.
  - unfold rf2xx_wr_off, rf2xx_wr_off_critical, baseline.
    destruct (Z.eqb_spec (rf2xx_on w) 0) as [H0 | H0]; cbn [negb].
    + cbn [snd]. exact Hq.
    + cbn [rf2xx_state set_rf2xx_on].
      destruct (rf2xx_state_eqb (rf2xx_state w) RF_LISTEN) eqn:E; cbn [snd].
      * cbn [rf2xx_state rf2xx_on set_rf2xx_state].
        rewrite (proj1 (proj2 (idle_frame _))). reflexivity.
      * unfold baseline in Hq.
        destruct (Z.eqb_spec (rf2xx_on w) 0); [contradiction |].
        rewrite Hq in E. discriminate E.
  - intros payload n. unfold rf2xx_wr_prepare.
    destruct (n >? RF2XX_MAX_PAYLOAD); exact Hq.
  - intros buf n. unfold rf2xx_wr_read.
    destruct Hst as [-> | ->]; reflexivity.
  - intros fuel sched n ret w'. apply Htx. exact Hq.
  - intros fuel sched payload n ret w' H. unfold rf2xx_wr_send in H.
    pose proof (fun v => Htx v fuel sched n ret w') as Htx'.
    unfold rf2xx_wr_prepare in H.
    destruct (n >? RF2XX_MAX_PAYLOAD); cbn [negb Z.eqb] in H.
    + injection H as <- <-. split; [exact Hq | discriminate].
    + apply Htx' in H; [exact H | exact Hq].
Qed.

Lemma to_u8_testbit (z i : Z) :
  0 <= i -> Z.testbit (to_u8 z) i = (i <? 8) && Z.testbit z i.
Proof.
  intro Hi. unfold to_u8. change 256 with (2 ^ 8).
  destruct (Z.ltb_spec i 8).
  - rewrite Z.mod_pow2_bits_low by lia. reflexivity.
  - rewrite Z.mod_pow2_bits_high by lia. reflexivity.
Qed.

(** X13.  On a board with an external amplifier, [idle] and the enabling step
    of [listen] and [transmit] end with a read-modify-write of TRX_CTRL_1:
    the byte written back has the PA_EXT_EN bits cleared by [idle], set by
    the enabling step, and every other bit as it was read.  On a board
    without it, neither touches the register. *)
Theorem pa_ext_en_read_modify_write (w : driver) :
  let M := RF2XX_TRX_CTRL_1_MASK__PA_EXT_EN in
  let rd t := to_u8 (bus_read t (RegRead RF2XX_REG__TRX_CTRL_1)) in
  (rf2xx_has_pa = true ->
   (exists t v,
      trace (idle w)
      = t ++ [RegRead RF2XX_REG__TRX_CTRL_1;
              RegWrite RF2XX_REG__TRX_CTRL_1 v] /\
      0 <= v < 256 /\
      Z.land v M = 0 /\
      forall i, 0 <= i -> Z.testbit M i = false ->
                Z.testbit v i = Z.testbit (rd t) i) /\
   (exists t v,
      trace (pa_ext_enable w)
      = t ++ [RegRead RF2XX_REG__TRX_CTRL_1;
              RegWrite RF2XX_REG__TRX_CTRL_1 v] /\
      0 <= v < 256 /\
      (forall i, 0 <= i < 8 -> Z.testbit M i = true ->
                 Z.testbit v i = true) /\
      forall i, 0 <= i -> Z.testbit M i = false ->
                Z.testbit v i = Z.testbit (rd t) i)) /\
  (rf2xx_has_pa = false ->
   trace (idle w)
   = trace w ++ [IrqDisable; FifoAccessCancel; SlpTrClear;
                 SetState RF2XX_TRX_STATE__FORCE_PLL_ON] /\
   pa_ext_enable w = w).
Proof.
  intros M rd. split; intro Hpa.
  - split.
    + unfold idle, rf2xx_reg_read, rf2xx_reg_write. rewrite Hpa.
      cbn [trace emit]. eexists. eexists.
      split; [rewrite <- app_assoc; reflexivity |].
      split; [apply to_u8_range | split].
      * apply Z.bits_inj'. intros i Hi.
        rewrite Z.land_spec, Z.bits_0, to_u8_testbit, Z.land_spec,
          Z.lnot_spec by assumption.
        fold M. destruct (Z.testbit M i); cbn;
          rewrite ?andb_false_r; reflexivity.
      * intros i Hi HM.
        rewrite to_u8_testbit, Z.land_spec, Z.lnot_spec by assumption.
        fold M. rewrite HM. cbn [negb]. rewrite andb_true_r.
        unfold rd. rewrite (to_u8_testbit (bus_read _ _)) by assumption.
        rewrite andb_assoc, andb_diag. reflexivity.
    + unfold pa_ext_enable, rf2xx_reg_read, rf2xx_reg_write. rewrite Hpa.
      cbn [trace emit]. eexists. eexists.
      split; [rewrite <- app_assoc; reflexivity |].
      split; [apply to_u8_range | split].
      * intros i Hi HM.
        rewrite to_u8_testbit, Z.lor_spec by lia. fold M. rewrite HM.
        rewrite orb_true_r, andb_true_r. apply Z.ltb_lt. lia.
      * intros i Hi HM.
        rewrite to_u8_testbit, Z.lor_spec by assumption.
        fold M. rewrite HM, orb_false_r.
        unfold rd. rewrite (to_u8_testbit (bus_read _ _)) by assumption.
        rewrite andb_assoc, andb_diag. reflexivity.
  - unfold idle, pa_ext_enable. rewrite Hpa. cbn [trace emit].
    split; [rewrite <- !app_assoc |]; reflexivity.
Qed.

End MoreProperties.

(** * Properties of the worker process, of carrier sense, of
      initialisation and of the node address *)

Section RestProperties.

Context {P : Platform} {R : PlatformRest}.

(** After the public read, and after a wake-up of the worker, no packet
    is pending. *)
Lemma wr_read_not_pending (buf : list Z) (buf_len : Z) (w : driver) :
  rf2xx_state_eqb (rf2xx_state (snd (rf2xx_wr_read buf buf_len w)))
    RF_RX_DONE = false.
Proof.
  unfold rf2xx_wr_read.
  destruct (rf2xx_state_eqb (rf2xx_state w) RF_RX_DONE) eqn:E; cbn [negb].
  - destruct (read buf (to_u8 buf_len) (set_rf2xx_state RF_RX_READ w))
      as [[len buf'] w'].
    cbn [snd]. rewrite restart_baseline. unfold baseline.
    destruct (rf2xx_on (restart w') =? 0); reflexivity.
  - exact E.
Qed.

Lemma process_poll_not_pending (pb : list Z) (w : driver) :
  rf2xx_state_eqb (rf2xx_state (snd (rf2xx_process_poll pb w)))
    RF_RX_DONE = false.
Proof.
  unfold rf2xx_process_poll.
  destruct (rf2xx_state_eqb (rf2xx_state w) RF_RX_DONE) eqn:E.
  - destruct (read pb _ (set_rf2xx_state RF_RX_READ w)) as [[len pb'] w'].
    assert (H : rf2xx_state_eqb (rf2xx_state (restart w')) RF_RX_DONE
                = false).
    { rewrite restart_baseline. unfold baseline.
      destruct (rf2xx_on (restart w') =? 0); reflexivity. }
    destruct (len >? 0); exact H.
  - exact E.
Qed.

(** ** The worker process *)

(** X14.  A pending frame is drained once, by whichever of the public read
    and the worker runs first: in every state, a wake-up of the worker
    right after a read, a read right after a wake-up, and a second wake-up
    right after a first one find nothing, call nothing and change
    nothing. *)
Theorem frame_drained_once (buf pb : list Z) (buf_len : Z) (w : driver) :
  let after_read := snd (rf2xx_wr_read buf buf_len w) in
  let after_poll := snd (rf2xx_process_poll pb w) in
  (forall pb2, rf2xx_process_poll pb2 after_read = ([], pb2, after_read)) /\
  (forall buf2 n, rf2xx_wr_read buf2 n after_poll = (0, buf2, after_poll)) /\
  (forall pb2, rf2xx_process_poll pb2 after_poll = ([], pb2, after_poll)).
Proof.
  intros after_read after_poll.
  pose proof (wr_read_not_pending buf buf_len w) as Hr.
  pose proof (process_poll_not_pending pb w) as Hp.
  fold after_read in Hr. fold after_poll in Hp.
  split; [| split].
  - intro pb2. unfold rf2xx_process_poll. rewrite Hr. reflexivity.
  - intros buf2 n. unfold rf2xx_wr_read. rewrite Hp. reflexivity.
  - intro pb2. unfold rf2xx_process_poll. rewrite Hp. reflexivity.
Qed.

(** X15.  A wake-up of the worker with a frame pending.  The frame goes to
    the RDC layer, with its length set in the packet buffer and its bytes
    at the start of the data area, exactly when its CRC is valid and its
    payload is not empty and fits the data area; otherwise the only call is
    the clearing of the packet buffer and the data area is left as it was.
    Either way the driver ends at the baseline of the flag. *)
Theorem process_poll_delivery (pb : list Z) (w : driver) :
  let room := to_u8 (PACKETBUF_SIZE - PACKETBUF_HDR_SIZE) in
  let rssi := to_u8 (bus_read (trace w) (RegRead RF2XX_REG__PHY_RSSI)) in
  let t1 := trace w ++ [RegRead RF2XX_REG__PHY_RSSI] in
  let len := to_u8 (to_u8 (bus_read t1 FifoReadFirst) - 2) in
  let r := rf2xx_process_poll pb w in
  rf2xx_state w = RF_RX_DONE ->
  (Z.land rssi RF2XX_PHY_RSSI_MASK__RX_CRC_VALID <> 0 ->
   0 < len <= room ->
   fst (fst r)
     = [PacketbufClear; PacketbufSetDatalen len; NetstackRdcInput] /\
   firstn (Z.to_nat len) (snd (fst r))
     = fifo_bytes (t1 ++ [FifoReadFirst]) len /\
   skipn (Z.to_nat len) (snd (fst r)) = skipn (Z.to_nat len) pb) /\
  (Z.land rssi RF2XX_PHY_RSSI_MASK__RX_CRC_VALID = 0 \/ len = 0
   \/ room < len ->
   fst r = ([PacketbufClear], pb)) /\
  rf2xx_state (snd r) = baseline (snd r).
Proof.
  intros room rssi t1 len r Hst. subst r. unfold rf2xx_process_poll.
  rewrite Hst. cbn [rf2xx_state_eqb]. fold room.
  pose proof (to_u8_range (to_u8 (bus_read t1 FifoReadFirst) - 2)) as Hlen.
  fold len in Hlen.
  assert (Hvalid :
    Z.land rssi RF2XX_PHY_RSSI_MASK__RX_CRC_VALID <> 0 ->
    read pb room (set_rf2xx_state RF_RX_READ w) =
      if len >? room
      then (0, pb,
            emit (FifoReadRemaining 0)
              (emit FifoReadFirst
                 (emit (RegRead RF2XX_REG__PHY_RSSI)
                    (set_rf2xx_state RF_RX_READ w))))
      else (len, memcpy pb (fifo_bytes (t1 ++ [FifoReadFirst]) len) len,
            emit (FifoReadRemaining len)
              (emit FifoReadFirst
                 (emit (RegRead RF2XX_REG__PHY_RSSI)
                    (set_rf2xx_state RF_RX_READ w))))).
  { intro Hcrc.
    exact (read_crc_valid pb room (set_rf2xx_state RF_RX_READ w) Hcrc). }
  split; [| split].
  - intros Hcrc Hfit. rewrite (Hvalid Hcrc).
    destruct (Z.gtb_spec len room); [lia |].
    destruct (Z.gtb_spec len 0); [| lia].
    cbn [fst snd]. split; [reflexivity | split].
    + rewrite memcpy_firstn by (rewrite fifo_bytes_length; lia).
      apply firstn_all2. rewrite fifo_bytes_length. lia.
    + apply memcpy_skipn. rewrite fifo_bytes_length. lia.
  - intros [Hbad | [Hzero | Hbig]].
    + rewrite (read_crc_bad pb room (set_rf2xx_state RF_RX_READ w) Hbad).
      reflexivity.
    + destruct (Z.eq_dec (Z.land rssi RF2XX_PHY_RSSI_MASK__RX_CRC_VALID) 0)
        as [Hbad | Hok].
      * rewrite (read_crc_bad pb room (set_rf2xx_state RF_RX_READ w) Hbad).
        reflexivity.
      * rewrite (Hvalid Hok). rewrite Hzero.
        destruct (0 >? room); reflexivity.
    + destruct (Z.eq_dec (Z.land rssi RF2XX_PHY_RSSI_MASK__RX_CRC_VALID) 0)
        as [Hbad | Hok].
      * rewrite (read_crc_bad pb room (set_rf2xx_state RF_RX_READ w) Hbad).
        reflexivity.
      * rewrite (Hvalid Hok).
        destruct (Z.gtb_spec len room); [reflexivity | lia].
  - destruct (read pb room (set_rf2xx_state RF_RX_READ w))
      as [[n pb'] w'].
    destruct (n >? 0); cbn [snd]; apply restart_baseline.
Qed.

(** ** Carrier sense *)

(** The wait of [rf2xx_wr_channel_clear] ends at the first read [m]
    after which the state is no longer Listening or the value read has
    CCA_DONE. *)
Lemma cca_wait_inv (sched : list (option env_event)) (k : nat) (w : driver)
  (reg : Z) (n : nat) (w' : driver) :
  cca_wait sched k w = Some (reg, n, w') ->
  exists m,
    n = S (k + m) /\ (m < length sched)%nat /\
    w' = run_opt_events (firstn (S m) sched) w /\
    reg = to_u8 (trx_status_read
                   (trace (run_opt_events (firstn m sched) w)) (k + m)) /\
    (rf2xx_state w' <> RF_LISTEN \/
     Z.land reg RF2XX_TRX_STATUS_MASK__CCA_DONE <> 0) /\
    (forall i, (i < m)%nat ->
       rf2xx_state (run_opt_events (firstn (S i) sched) w) = RF_LISTEN /\
       Z.land (to_u8 (trx_status_read
                        (trace (run_opt_events (firstn i sched) w)) (k + i)))
              RF2XX_TRX_STATUS_MASK__CCA_DONE = 0).
Proof.
  revert k w. induction sched as [| ev sched IH]; intros k w H; simpl in H.
  - discriminate H.
  - set (w1 := match ev with Some e => run_event e w | None => w end) in *.
    destruct (rf2xx_state_eqb (rf2xx_state w1) RF_LISTEN) eqn:Est;
      [destruct (Z.eqb_spec
         (Z.land (to_u8 (trx_status_read (trace w) k))
                 RF2XX_TRX_STATUS_MASK__CCA_DONE) 0) as [Hd | Hd] |];
      cbn [andb] in H.
    + destruct (IH _ _ H) as (m & -> & Hm & -> & -> & Hexit & Hbefore).
      exists (S m). rewrite Nat.add_succ_r. cbn [plus Nat.add].
      split; [reflexivity | split; [simpl; lia |]].
      split; [reflexivity | split; [reflexivity | split; [exact Hexit |]]].
      intros [| i] Hi.
      * cbn [firstn run_opt_events fold_left]. rewrite Nat.add_0_r.
        split; [apply rf2xx_state_eqb_eq; exact Est | exact Hd].
      * destruct (Hbefore i ltac:(lia)) as [Hs Hz].
        rewrite Nat.add_succ_r. split; [exact Hs | exact Hz].
    + injection H as <- <- <-. exists 0%nat. rewrite Nat.add_0_r.
      split; [reflexivity | split; [simpl; lia |]].
      split; [reflexivity | split; [reflexivity | split; [right; exact Hd |]]].
      intros i Hi. lia.
    + injection H as <- <- <-. exists 0%nat. rewrite Nat.add_0_r.
      split; [reflexivity | split; [simpl; lia |]].
      split; [reflexivity | split; [reflexivity | split]].
      * left. intro Heq. cbn [firstn run_opt_events fold_left] in Heq.
        fold w1 in Heq. rewrite Heq in Est. discriminate Est.
      * intros i Hi. lia.
Qed.

(** With nothing running during the wait, the loop ends at the first
    read that shows CCA_DONE. *)
Lemma cca_wait_quiet (m j k : nat) (w : driver) :
  rf2xx_state w = RF_LISTEN ->
  (j < m)%nat ->
  (forall i, (i < j)%nat ->
     Z.land (to_u8 (trx_status_read (trace w) (k + i)))
            RF2XX_TRX_STATUS_MASK__CCA_DONE = 0) ->
  Z.land (to_u8 (trx_status_read (trace w) (k + j)))
         RF2XX_TRX_STATUS_MASK__CCA_DONE <> 0 ->
  cca_wait (repeat None m) k w
  = Some (to_u8 (trx_status_read (trace w) (k + j)), S (k + j), w).
Proof.
  intros Hst. revert m k.
  induction j as [| j IH]; intros m k Hm Hbefore Hdone;
    (destruct m as [| m]; [lia |]); simpl; rewrite Hst; cbn [rf2xx_state_eqb
      andb].
  - rewrite Nat.add_0_r in *.
    destruct (Z.eqb_spec
      (Z.land (to_u8 (trx_status_read (trace w) k))
              RF2XX_TRX_STATUS_MASK__CCA_DONE) 0); [contradiction |].
    reflexivity.
  - pose proof (Hbefore 0%nat ltac:(lia)) as H0. rewrite Nat.add_0_r in H0.
    rewrite H0. cbn [Z.eqb].
    rewrite Nat.add_succ_r.
    apply (IH m (S k)); [lia | | ].
    + intros i Hi. specialize (Hbefore (S i) ltac:(lia)).
      rewrite Nat.add_succ_r in Hbefore. exact Hbefore.
    + rewrite Nat.add_succ_r in Hdone. exact Hdone.
Qed.

(** X16.  [channel_clear] assesses the channel only from Listening.  In
    state Receiving it answers 0 (busy) and in every other state 1 (clear),
    also while transmitting or with a frame pending, without any access to
    the chip.  From Listening it writes one assessment request, then reads
    TRX_STATUS until the state has left Listening or the value read has
    CCA_DONE, and whichever ended the wait, its answer is the CCA_STATUS
    bit of the last value read. *)
Theorem channel_clear_verdict (sched : list (option env_event))
  (w : driver) :
  let req :=
    to_u8 (Z.lor (Z.lor RF2XX_PHY_CC_CCA_DEFAULT__CCA_MODE
                    (Z.land RF2XX_CHANNEL RF2XX_PHY_CC_CCA_MASK__CHANNEL))
             RF2XX_PHY_CC_CCA_MASK__CCA_REQUEST) in
  (rf2xx_state w = RF_RX ->
   rf2xx_wr_channel_clear sched w = Some (0, [], w)) /\
  (rf2xx_state w <> RF_RX ->
   rf2xx_state w <> RF_LISTEN ->
   rf2xx_wr_channel_clear sched w = Some (1, [], w)) /\
  (rf2xx_state w = RF_LISTEN ->
   forall clear ops w',
     rf2xx_wr_channel_clear sched w = Some (clear, ops, w') ->
     exists m,
       (m < length sched)%nat /\
       ops = PhyCcCcaWrite req :: repeat TrxStatusRead (S m) /\
       w' = run_opt_events (firstn (S m) sched) w /\
       let reg :=
         to_u8 (trx_status_read
                  (trace (run_opt_events (firstn m sched) w)) m) in
       clear
       = (if Z.land reg RF2XX_TRX_STATUS_MASK__CCA_STATUS =? 0 then 0
          else 1) /\
       (rf2xx_state w' <> RF_LISTEN \/
        Z.land reg RF2XX_TRX_STATUS_MASK__CCA_DONE <> 0) /\
       (forall i, (i < m)%nat ->
          rf2xx_state (run_opt_events (firstn (S i) sched) w) = RF_LISTEN /\
          Z.land (to_u8 (trx_status_read
                           (trace (run_opt_events (firstn i sched) w)) i))
                 RF2XX_TRX_STATUS_MASK__CCA_DONE = 0)).
Proof.
  intro req. split; [| split].
  - intro Hst. unfold rf2xx_wr_channel_clear. rewrite Hst. reflexivity.
  - intros Hrx Hlisten. unfold rf2xx_wr_channel_clear.
    destruct (rf2xx_state w); try reflexivity; contradiction.
  - intros Hst clear ops w' H. unfold rf2xx_wr_channel_clear in H.
    rewrite Hst in H.
    destruct (cca_wait sched 0 w) as [[[reg n] w1] |] eqn:Hwait;
      [| discriminate H].
    injection H as <- <- <-.
    destruct (cca_wait_inv _ _ _ _ _ _ Hwait)
      as (m & -> & Hm & -> & -> & Hexit & Hbefore).
    exists m. cbn [plus Nat.add] in *.
    split; [exact Hm | split; [reflexivity | split; [reflexivity |]]].
    split; [reflexivity | split; [exact Hexit | exact Hbefore]].
Qed.

(** X17.  From Listening and with nothing else running, [channel_clear]
    returns as soon as a read of TRX_STATUS shows CCA_DONE: if the reads
    before the [j]-th do not show it and the [j]-th does, it returns after
    [j + 1] reads with the CCA_STATUS bit of that read, and the driver is
    unchanged. *)
Theorem channel_clear_quiet (m j : nat) (w : driver) :
  let req :=
    to_u8 (Z.lor (Z.lor RF2XX_PHY_CC_CCA_DEFAULT__CCA_MODE
                    (Z.land RF2XX_CHANNEL RF2XX_PHY_CC_CCA_MASK__CHANNEL))
             RF2XX_PHY_CC_CCA_MASK__CCA_REQUEST) in
  let reg := to_u8 (trx_status_read (trace w) j) in
  rf2xx_state w = RF_LISTEN ->
  (j < m)%nat ->
  (forall i, (i < j)%nat ->
     Z.land (to_u8 (trx_status_read (trace w) i))
            RF2XX_TRX_STATUS_MASK__CCA_DONE = 0) ->
  Z.land reg RF2XX_TRX_STATUS_MASK__CCA_DONE <> 0 ->
  rf2xx_wr_channel_clear (repeat None m) w
  = Some (if Z.land reg RF2XX_TRX_STATUS_MASK__CCA_STATUS =? 0 then 0
          else 1,
          PhyCcCcaWrite req :: repeat TrxStatusRead (S j), w).
Proof.
  intros req reg Hst Hm Hbefore Hdone.
  unfold rf2xx_wr_channel_clear. rewrite Hst.
  rewrite (cca_wait_quiet m j 0 w Hst Hm Hbefore Hdone).
  reflexivity.
Qed.

(** ** Initialisation *)

Lemma skipn_length_app (t l : list effect) : skipn (length t) (t ++ l) = l.
Proof. rewrite skipn_app, skipn_all, Nat.sub_diag. reflexivity. Qed.

(** What [idle] adds to the trace. *)
Lemma idle_delta (w : driver) :
  exists l,
    skipn (length (trace w)) (trace (idle w))
    = [IrqDisable; FifoAccessCancel; SlpTrClear;
       SetState RF2XX_TRX_STATE__FORCE_PLL_ON] ++ l /\
    (l = [] \/
     exists v, l = [PaDisable; RegRead RF2XX_REG__TRX_CTRL_1;
                    RegWrite RF2XX_REG__TRX_CTRL_1 v]).
Proof.
  unfold idle, rf2xx_reg_read, rf2xx_reg_write.
  destruct rf2xx_has_pa; cbn [trace emit]; rewrite <- !app_assoc;
    rewrite skipn_length_app; eexists; (split; [reflexivity |]).
  - right. eexists. reflexivity.
  - left. reflexivity.
Qed.

(** X18.  [init] recovers from any state: whatever the driver was doing, it
    returns 1 and leaves the state Idle, the flag clear and no frame
    prepared, so the driver is at rest.  It never enables the interrupt nor
    arms the receiver, and its last act is to start the worker process.
    After it, [on] arms the receiver, and a [transmit] of a non-zero length
    is refused until a frame is prepared. *)
Theorem init_recovers (w : driver) :
  let r := rf2xx_wr_init w in
  let ops := snd (fst r) in
  let w' := snd r in
  fst (fst r) = 1 /\
  rf2xx_state w' = RF_IDLE /\ rf2xx_on w' = 0 /\ tx_len w' = 0 /\
  cca_pending w' = 0 /\ tx_buf w' = tx_buf w /\
  quiescent w' /\
  ~ In (Chip IrqEnable) ops /\
  ~ In (Chip (SetState RF2XX_TRX_STATE__RX_ON)) ops /\
  (exists pre, ops = pre ++ [ProcessStart]) /\
  rf2xx_state (snd (rf2xx_wr_on w')) = RF_LISTEN /\
  (forall fuel sched n,
     n <> 0 -> rf2xx_wr_transmit fuel sched n w' = Some (RADIO_TX_ERR, w')).
Proof.
  intros r ops w'. subst r ops w'. unfold rf2xx_wr_init, reset.
  cbn [fst snd].
  set (w0 := emit SlpTrClear (emit IrqDisable (emit FifoAccessCancel
               (mkDriver RF_IDLE 0 0 (tx_buf w) 0 (trace w))))).
  destruct (idle_frame w0) as (Hst & Hon & Hbuf & Hlen).
  assert (Hcca : cca_pending (idle w0) = 0).
  { unfold idle. destruct rf2xx_has_pa; reflexivity. }
  assert (Hnot : forall e,
    e <> IrqDisable -> e <> FifoAccessCancel -> e <> SlpTrClear ->
    e <> SetState RF2XX_TRX_STATE__FORCE_PLL_ON -> e <> PaDisable ->
    e <> RegRead RF2XX_REG__TRX_CTRL_1 ->
    (forall v, e <> RegWrite RF2XX_REG__TRX_CTRL_1 v) ->
    ~ In (Chip e)
        (([Chip FifoAccessCancel; Chip IrqDisable; IrqConfigure]
          ++ (if rf2xx_has_dig2 then [Dig2Disable] else [])
          ++ [Chip SlpTrClear; ChipReset;
              ConfigWrite RF2XX_REG__TRX_CTRL_2
                (to_u8 RF2XX_TRX_CTRL_2_MASK__RX_SAFE_MODE);
              ConfigWrite RF2XX_REG__PHY_TX_PWR
                (to_u8 (Z.lor (Z.lor RF2XX_PHY_TX_PWR_DEFAULT__PA_BUF_LT
                                 RF2XX_PHY_TX_PWR_DEFAULT__PA_LT)
                          RF2XX_PHY_TX_PWR_TX_PWR_VALUE__3dBm));
              ConfigWrite RF2XX_REG__TRX_CTRL_0
                (to_u8 (Z.lor (Z.lor (Z.lor RF2XX_TRX_CTRL_0_DEFAULT__PAD_IO
                                        RF2XX_TRX_CTRL_0_DEFAULT__PAD_IO_CLKM)
                                 RF2XX_TRX_CTRL_0_DEFAULT__CLKM_SHA_SEL)
                          RF2XX_TRX_CTRL_0_CLKM_CTRL__OFF));
              ConfigWrite RF2XX_REG__XOSC_CTRL
                (to_u8 (Z.lor RF2XX_XOSC_CTRL__XTAL_MODE_CRYSTAL 0));
              ConfigWrite RF2XX_REG__PHY_CC_CCA
                (to_u8 (Z.lor RF2XX_PHY_CC_CCA_DEFAULT__CCA_MODE
                          (Z.land RF2XX_CHANNEL
                             RF2XX_PHY_CC_CCA_MASK__CHANNEL)));
              ConfigWrite RF2XX_REG__IRQ_MASK
                (to_u8 (Z.lor RF2XX_IRQ_STATUS_MASK__TRX_END
                          RF2XX_IRQ_STATUS_MASK__RX_START))])
         ++ map Chip (skipn (length (trace w0)) (trace (idle w0)))
         ++ [ProcessStart])).
  { intros e H1 H2 H3 H4 H5 H6 H7 Hin.
    destruct (idle_delta w0) as (l & Hd & Hl). rewrite Hd in Hin.
    assert (Hl' : ~ In (Chip e) (map Chip l)).
    { destruct Hl as [-> | [v ->]]; cbn; intro Hc;
        repeat (destruct Hc as [Hc | Hc];
                [injection Hc as Hc;
                 first [congruence | exact (H7 v (eq_sym Hc))] |]);
        contradiction. }
    rewrite map_app in Hin. apply in_app_or in Hin.
    destruct Hin as [Hin | Hin].
    - apply in_app_or in Hin. destruct Hin as [Hin | Hin].
      + cbn in Hin.
        repeat (destruct Hin as [Hin | Hin];
                [try discriminate Hin; injection Hin as Hin; congruence |]).
        exact Hin.
      + apply in_app_or in Hin. destruct Hin as [Hin | Hin].
        * destruct rf2xx_has_dig2; cbn in Hin;
            repeat (destruct Hin as [Hin | Hin]; [discriminate Hin |]);
            exact Hin.
        * cbn in Hin.
          repeat (destruct Hin as [Hin | Hin];
                  [try discriminate Hin; injection Hin as Hin; congruence |]).
          exact Hin.
    - apply in_app_or in Hin. destruct Hin as [Hin | Hin].
      + apply in_app_or in Hin. destruct Hin as [Hin | Hin].
        * cbn in Hin.
          repeat (destruct Hin as [Hin | Hin];
                  [injection Hin as Hin; congruence |]).
          exact Hin.
        * exact (Hl' Hin).
      + cbn in Hin. destruct Hin as [Hin | Hin]; [discriminate Hin | exact Hin].
  }
  split; [reflexivity |].
  split; [exact Hst | split; [exact Hon | split; [exact Hlen |]]].
  split; [exact Hcca | split; [exact Hbuf |]].
  split; [unfold quiescent, baseline; rewrite Hst, Hon; reflexivity |].
  split; [apply Hnot; intros; discriminate |].
  split; [apply Hnot; intros; discriminate |].
  split.
  - eexists. rewrite !app_assoc. reflexivity.
  - split.
    + unfold rf2xx_wr_on, rf2xx_wr_on_critical. rewrite Hon.
      cbn [Z.eqb rf2xx_state set_rf2xx_on]. rewrite Hst.
      cbn [rf2xx_state_eqb snd]. apply listen_frame.
    + intros fuel sched n Hn. unfold rf2xx_wr_transmit. rewrite Hlen.
      change (tx_len w0) with 0.
      destruct (Z.eqb_spec 0 n); [congruence | reflexivity].
Qed.

End RestProperties.

(** ** The node address *)

(** X19.  [set_rime_addr] overwrites all eight bytes of the address: the
    result is 01:23:45:00 followed by bytes 6 to 9 of the identifier,
    whatever the address held before.  Hence two processors get the same
    address exactly when their identifiers agree on bytes 6 to 9; the other
    eight bytes of the identifier play no part. *)
Theorem set_rime_addr_from_uid (uid1 uid2 addr1 addr2 : list Z) :
  length addr1 = 8%nat ->
  length addr2 = 8%nat ->
  set_rime_addr uid1 addr1
  = [0x01; 0x23; 0x45; 0x00;
     nth 6 uid1 0; nth 7 uid1 0; nth 8 uid1 0; nth 9 uid1 0] /\
  (set_rime_addr uid1 addr1 = set_rime_addr uid2 addr2 <->
   forall i, (6 <= i <= 9)%nat -> nth i uid1 0 = nth i uid2 0).
Proof.
  intros H1 H2.
  assert (Hval : forall uid addr, length addr = 8%nat ->
    set_rime_addr uid addr
    = [0x01; 0x23; 0x45; 0x00;
       nth 6 uid 0; nth 7 uid 0; nth 8 uid 0; nth 9 uid 0]).
  { intros uid addr H.
    do 9 (destruct addr as [| ? addr]; try discriminate H).
    reflexivity. }
  split; [apply Hval; exact H1 |].
  rewrite (Hval uid1 addr1 H1), (Hval uid2 addr2 H2). split.
  - intros Heq i Hi. injection Heq as E6 E7 E8 E9.
    assert (Hc : i = 6%nat \/ i = 7%nat \/ i = 8%nat \/ i = 9%nat) by lia.
    destruct Hc as [-> | [-> | [-> | ->]]]; assumption.
  - intro H.
    rewrite (H 6%nat), (H 7%nat), (H 8%nat), (H 9%nat) by lia.
    reflexivity.
Qed.

(** * The further properties on the concrete boards *)

Lemma transmit_error_means_pll_timeout_witness :
  let w := listening_driver in
  let te := tx_enter (P:=board) true (set_rf2xx_state RF_TX w) in
  exists v w2,
    pll_wait (P:=board) 1 (fst te) (snd te) = Some (v, w2) /\
    v = PllReady.
Proof.
  assert (E : rf2xx_wr_transmit (P:=board) 1 [EvIrq] 3 listening_driver
              = Some (RADIO_TX_OK,
                      tx_final (rf2xx_wr_transmit (P:=board) 1 [EvIrq] 3
                                  listening_driver)))
    by (vm_compute; reflexivity).
  destruct (transmit_error_means_pll_timeout (P:=board) 1 [EvIrq] 3
              listening_driver RADIO_TX_OK _ (or_intror eq_refl) eq_refl E)
    as (v & w2 & Hpll & _ & Hok).
  exists v, w2. split; [exact Hpll | apply Hok; reflexivity].
Defined.

Lemma transmit_sends_iff_ok_witness :
  count_eff is_slp_tr_set
    (trace (tx_final (rf2xx_wr_transmit (P:=board) 1 [EvIrq] 3
                        listening_driver))) = 1%nat /\
  count_eff is_fifo_write
    (trace (tx_final (rf2xx_wr_transmit (P:=stuck_board) 2 [] 3
                        listening_driver))) = 0%nat.
Proof.
  assert (E1 : rf2xx_wr_transmit (P:=board) 1 [EvIrq] 3 listening_driver
               = Some (RADIO_TX_OK,
                       tx_final (rf2xx_wr_transmit (P:=board) 1 [EvIrq] 3
                                   listening_driver)))
    by (vm_compute; reflexivity).
  assert (E2 : rf2xx_wr_transmit (P:=stuck_board) 2 [] 3 listening_driver
               = Some (RADIO_TX_ERR,
                       tx_final (rf2xx_wr_transmit (P:=stuck_board) 2 [] 3
                                   listening_driver)))
    by (vm_compute; reflexivity).
  split.
  - exact (proj1 (transmit_sends_iff_ok (P:=board) 1 [EvIrq] 3
                    listening_driver RADIO_TX_OK _ E1)).
  - exact (proj2 (transmit_sends_iff_ok (P:=stuck_board) 2 [] 3
                    listening_driver RADIO_TX_ERR _ E2)).
Defined.

Lemma send_too_large_witness :
  rf2xx_wr_send (P:=board) 1 [EvIrq] (repeat 7 200) 200 listening_driver
  = Some (RADIO_TX_ERR, set_tx_len 0 listening_driver).
Proof.
  apply (proj1 (send_too_large (P:=board) 1 [EvIrq] (repeat 7 200) 200
                  listening_driver eq_refl)).
Defined.

Lemma send_busy_overwrites_frame_witness :
  exists w',
    rf2xx_wr_send (P:=board) 1 [EvIrq] [1; 2] 2 transmitting_driver
      = Some (RADIO_TX_COLLISION, w') /\
    tx_len w' = 2 /\
    firstn 2 (tx_buf w') = [1; 2].
Proof.
  destruct (send_busy_overwrites_frame (P:=board) 1 [EvIrq] [1; 2] 2
              transmitting_driver)
    as (w' & Hsend & _ & _ & _ & Hlen & Hbuf).
  - unfold RF2XX_MAX_PAYLOAD. lia.
  - simpl. lia.
  - discriminate.
  - discriminate.
  - exists w'. split; [exact Hsend | split; [exact Hlen | exact Hbuf]].
Defined.

Lemma send_puts_payload_on_air_witness :
  let w' := tx_final (rf2xx_wr_send (P:=board) 1 [EvIrq] [1; 2] 2
                        init_driver) in
  rf2xx_state w' = baseline w'.
Proof.
  apply (send_puts_payload_on_air (P:=board) 1 [EvIrq] [1; 2] 2
           init_driver).
  - unfold RF2XX_MAX_PAYLOAD. lia.
  - simpl. lia.
  - left. reflexivity.
  - vm_compute. reflexivity.
Defined.

Lemma wr_read_within_buffer_witness :
  fst (fst (rf2xx_wr_read (P:=board) (repeat 0 8) 8 rx_done_driver)) <= 8 /\
  length (snd (fst (rf2xx_wr_read (P:=board) (repeat 0 8) 8
                      rx_done_driver))) = 8%nat.
Proof.
  destruct (wr_read_within_buffer (P:=board) (repeat 0 8) 8 rx_done_driver)
    as (_ & Hle & _ & Hsize & _).
  split.
  - apply Hle. lia.
  - apply Hsize. vm_compute. discriminate.
Defined.

Lemma wr_read_consumes_pending_witness :
  rf2xx_wr_read (P:=board) (repeat 0 8) 8 listening_driver
    = (0, repeat 0 8, listening_driver) /\
  rf2xx_on (snd (rf2xx_wr_read (P:=board) (repeat 0 8) 8 rx_done_driver))
    = 1.
Proof.
  split.
  - apply (proj1 (wr_read_consumes_pending (P:=board) (repeat 0 8) 8
                    listening_driver)).
    reflexivity.
  - apply (proj2 (wr_read_consumes_pending (P:=board) (repeat 0 8) 8
                    rx_done_driver)).
    reflexivity.
Defined.

Lemma wr_read_fifo_access_witness :
  count_eff is_fifo_read
    (trace (snd (rf2xx_wr_read (P:=board) (repeat 0 8) 8 rx_done_driver)))
  = 2%nat.
Proof.
  apply (proj2 (wr_read_fifo_access (P:=board) (repeat 0 8) 8
                  rx_done_driver eq_refl)).
  vm_compute. discriminate.
Defined.

Lemma receive_sequence_witness :
  let w1 := irq_handler (P:=rx_board) listening_driver in
  let w2 := irq_handler (P:=rx_board) w1 in
  rf2xx_wr_receiving_packet w1 = 1 /\
  rf2xx_wr_pending_packet w2 = 1 /\
  fst (fst (rf2xx_wr_read (P:=rx_board) (repeat 0 8) 8 w2)) = 3.
Proof.
  destruct (receive_sequence (P:=rx_board) (repeat 0 8) 8 listening_driver)
    as ((Hrx & _) & (_ & Hpend) & _ & Hlen).
  - reflexivity.
  - vm_compute. discriminate.
  - reflexivity.
  - vm_compute. discriminate.
  - split; [exact Hrx | split; [exact Hpend |]].
    apply Hlen; vm_compute; discriminate.
Defined.

Lemma on_off_record_intent_witness :
  trace (snd (rf2xx_wr_on (P:=board) transmitting_driver))
    = trace transmitting_driver /\
  trace (snd (rf2xx_wr_off (P:=board) transmitting_driver))
    = trace transmitting_driver.
Proof.
  destruct (on_off_record_intent (P:=board) transmitting_driver)
    as (_ & _ & Hon & Hoff & _).
  split; [apply Hon | apply Hoff]; discriminate.
Defined.

Lemma quiescent_preserved_witness :
  quiescent (snd (rf2xx_wr_off (P:=board) listening_driver)) /\
  quiescent (snd (rf2xx_wr_on (P:=board) init_driver)).
Proof.
  split.
  - apply (quiescent_preserved (P:=board) listening_driver). reflexivity.
  - apply (quiescent_preserved (P:=board) init_driver). reflexivity.
Defined.

Lemma pa_ext_en_read_modify_write_witness :
  (exists t v,
     trace (idle (P:=stuck_board) init_driver)
     = t ++ [RegRead RF2XX_REG__TRX_CTRL_1;
             RegWrite RF2XX_REG__TRX_CTRL_1 v] /\
     Z.land v 0x80 = 0) /\
  pa_ext_enable (P:=board) init_driver = init_driver.
Proof.
  split.
  - destruct (proj1 (proj1 (pa_ext_en_read_modify_write (P:=stuck_board)
                              init_driver) eq_refl))
      as (t & v & Ht & _ & Hz & _).
    exists t, v. split; [exact Ht | exact Hz].
  - apply (proj2 (pa_ext_en_read_modify_write (P:=board) init_driver)).
    reflexivity.
Defined.

Lemma process_poll_delivery_witness :
  fst (fst (rf2xx_process_poll (P:=board) (R:=board_rest) (repeat 0 8)
              rx_done_driver))
  = [PacketbufClear; PacketbufSetDatalen 3; NetstackRdcInput].
Proof.
  apply (proj1 (process_poll_delivery (P:=board) (R:=board_rest)
                  (repeat 0 8) rx_done_driver eq_refl)).
  - vm_compute. discriminate.
  - vm_compute. split; [reflexivity | discriminate].
Defined.

Lemma channel_clear_verdict_witness :
  rf2xx_wr_channel_clear (P:=board) (R:=board_rest) [None] receiving_driver
    = Some (0, [], receiving_driver) /\
  rf2xx_wr_channel_clear (P:=board) (R:=board_rest) [None]
    transmitting_driver
    = Some (1, [], transmitting_driver) /\
  exists m, (m < 4)%nat /\
    [PhyCcCcaWrite 171; TrxStatusRead; TrxStatusRead; TrxStatusRead]
    = PhyCcCcaWrite 171 :: repeat TrxStatusRead (S m).
Proof.
  split; [| split].
  - apply (proj1 (channel_clear_verdict (P:=board) (R:=board_rest) [None]
                    receiving_driver)).
    reflexivity.
  - apply (proj1 (proj2 (channel_clear_verdict (P:=board) (R:=board_rest)
                           [None] transmitting_driver)));
      discriminate.
  - destruct (proj2 (proj2 (channel_clear_verdict (P:=board) (R:=board_rest)
                              [None; None; None; None] listening_driver))
                eq_refl 1
                [PhyCcCcaWrite 171; TrxStatusRead; TrxStatusRead;
                 TrxStatusRead]
                listening_driver eq_refl)
      as (m & Hm & Hops & _).
    exists m. split; [exact Hm | exact Hops].
Defined.

Lemma channel_clear_quiet_witness :
  rf2xx_wr_channel_clear (P:=board) (R:=board_rest)
    [None; None; None; None] listening_driver
  = Some (1, [PhyCcCcaWrite 171; TrxStatusRead; TrxStatusRead;
              TrxStatusRead], listening_driver).
Proof.
  apply (channel_clear_quiet (P:=board) (R:=board_rest) 4 2
           listening_driver).
  - reflexivity.
  - lia.
  - intros [| [| i]] Hi; [reflexivity | reflexivity | lia].
  - vm_compute. discriminate.
Defined.

Lemma init_recovers_witness :
  rf2xx_state
    (snd (rf2xx_wr_init (P:=stuck_board) (R:=board_rest)
            transmitting_driver)) = RF_IDLE /\
  rf2xx_wr_transmit (P:=stuck_board) 1 [EvIrq] 3
    (snd (rf2xx_wr_init (P:=stuck_board) (R:=board_rest)
            transmitting_driver))
  = Some (RADIO_TX_ERR,
          snd (rf2xx_wr_init (P:=stuck_board) (R:=board_rest)
                 transmitting_driver)).
Proof.
  destruct (init_recovers (P:=stuck_board) (R:=board_rest)
              transmitting_driver)
    as (_ & Hst & _ & _ & _ & _ & _ & _ & _ & _ & _ & Htx).
  split; [exact Hst | apply Htx; discriminate].
Defined.

Lemma set_rime_addr_from_uid_witness :
  set_rime_addr [0; 1; 2; 3; 4; 5; 6; 7; 8; 9; 10; 11] (repeat 255 8)
  = [1; 35; 69; 0; 6; 7; 8; 9].
Proof.
  apply (proj1 (set_rime_addr_from_uid
                  [0; 1; 2; 3; 4; 5; 6; 7; 8; 9; 10; 11]
                  [0; 1; 2; 3; 4; 5; 6; 7; 8; 9; 10; 11]
                  (repeat 255 8) (repeat 255 8) eq_refl eq_refl)).
Defined.

(** * When [transmit] returns *)

Section TransmitReturns.

Context {P : Platform}.

(** Once the state is RF_TX_DONE, nothing that can run during the wait
    moves it. *)
Lemma run_event_tx_done (e : env_event) (w : driver) :
  rf2xx_state w = RF_TX_DONE -> rf2xx_state (run_event e w) = RF_TX_DONE.
Proof.
  intro Hst. destruct e; simpl.
  - unfold irq_handler. rewrite Hst. exact Hst.
  - unfold rf2xx_wr_on, rf2xx_wr_on_critical.
    destruct (rf2xx_on w =? 0); [| exact Hst].
    cbn [rf2xx_state set_rf2xx_on]. rewrite Hst. exact Hst.
  - unfold rf2xx_wr_off, rf2xx_wr_off_critical.
    destruct (negb (rf2xx_on w =? 0)); [| exact Hst].
    cbn [rf2xx_state set_rf2xx_on]. rewrite Hst. exact Hst.
Qed.

Lemma run_events_tx_done (sched : list env_event) (w : driver) :
  rf2xx_state w = RF_TX_DONE -> rf2xx_state (run_events sched w) = RF_TX_DONE.
Proof.
  revert w. induction sched as [| e sched IH]; intros w Hst.
  - exact Hst.
  - apply (IH (run_event e w)). apply run_event_tx_done. exact Hst.
Qed.

(** From RF_TX, the wait for the end of the packet goes on for ever
    exactly when the events of the schedule leave the state at RF_TX. *)
Lemma wait_tx_end_none_iff (sched : list env_event) (w : driver) :
  rf2xx_state w = RF_TX ->
  wait_tx_end sched w = None <-> rf2xx_state (run_events sched w) = RF_TX.
Proof.
  intro Hst. split; [apply wait_tx_end_spins |].
  revert w Hst. induction sched as [| e sched IH]; intros w Hst Hend;
    simpl; rewrite Hst; cbn [rf2xx_state_eqb]; [reflexivity |].
  destruct (run_event_from_tx e w Hst) as [Htx | Hdone].
  - apply IH; [exact Htx | exact Hend].
  - exfalso. change (run_events (e :: sched) w)
      with (run_events sched (run_event e w)) in Hend.
    rewrite (run_events_tx_done sched _ Hdone) in Hend. discriminate Hend.
Qed.

(** An interrupt whose latch does not report transfer-end leaves the
    state at RF_TX. *)
Lemma irq_handler_no_end (w : driver) :
  rf2xx_state w = RF_TX ->
  Z.land (to_u8 (bus_read (trace w) (RegRead RF2XX_REG__IRQ_STATUS)))
         RF2XX_IRQ_STATUS_MASK__TRX_END = 0 ->
  rf2xx_state (irq_handler w) = RF_TX.
Proof.
  intros Hst Hlatch. unfold irq_handler. rewrite Hst.
  unfold rf2xx_reg_read, irq_rx_start. rewrite andb_false_r.
  unfold irq_trx_end. rewrite Hlatch. exact Hst.
Qed.

(** If the latch never reports transfer-end, the wait for the end of
    the packet never ends, whatever runs. *)
Lemma wait_tx_end_lost_interrupt (sched : list env_event) (w : driver) :
  (forall t,
     Z.land (to_u8 (bus_read t (RegRead RF2XX_REG__IRQ_STATUS)))
            RF2XX_IRQ_STATUS_MASK__TRX_END = 0) ->
  rf2xx_state w = RF_TX ->
  wait_tx_end sched w = None.
Proof.
  intro Hlatch. revert w. induction sched as [| e sched IH]; intros w Hst;
    simpl; rewrite Hst; cbn [rf2xx_state_eqb]; [reflexivity |].
  apply IH. destruct e.
  - apply irq_handler_no_end; [exact Hst | apply Hlatch].
  - simpl. unfold rf2xx_wr_on, rf2xx_wr_on_critical.
    destruct (rf2xx_on w =? 0); [| exact Hst].
    cbn [rf2xx_state set_rf2xx_on]. rewrite Hst. exact Hst.
  - simpl. unfold rf2xx_wr_off, rf2xx_wr_off_critical.
    destruct (negb (rf2xx_on w =? 0)); [| exact Hst].
    cbn [rf2xx_state set_rf2xx_on]. rewrite Hst. exact Hst.
Qed.

(** C3, as amended.  A [transmit] with the prepared length that starts
    from Idle or Listening has exactly two ways to return, and both go
    through [restart].  Either the PLL wait times out: the result is
    TxError, [restart] runs on the driver the PLL wait left, still in
    RF_TX, and nothing was sent.  Or the PLL wait sees PLL_ON, the frame is
    started and the wait for the end of the packet ends, which it does only
    in RF_TX_DONE: the result is TxOk and [restart] runs on the driver that
    wait left.  In both the final state is the baseline of the flag as it
    then stands: Listening if set, Idle if clear.  There is no third way:
    the call does not return exactly when the PLL wait gets no verdict
    within [fuel] polls, or the chip is ready and the events of the schedule
    leave the state at RF_TX, as they do when the completion interrupt is
    lost; no TxError comes from a missed completion. *)
Theorem transmit_returns_at_baseline (fuel : nat) (sched : list env_event)
  (transmit_len : Z) (w : driver) :
  rf2xx_state w = RF_IDLE \/ rf2xx_state w = RF_LISTEN ->
  tx_len w = transmit_len ->
  let te := tx_enter (rf2xx_state_eqb (rf2xx_state w) RF_LISTEN)
              (set_rf2xx_state RF_TX w) in
  (forall ret w',
     rf2xx_wr_transmit fuel sched transmit_len w = Some (ret, w') ->
     exists v w2 w3,
       pll_wait fuel (fst te) (snd te) = Some (v, w2) /\
       match v with
       | PllTimeout =>
           ret = RADIO_TX_ERR /\ w3 = w2 /\ rf2xx_state w3 = RF_TX
       | PllReady =>
           ret = RADIO_TX_OK /\
           wait_tx_end sched (tx_start w2) = Some w3 /\
           rf2xx_state w3 = RF_TX_DONE
       end /\
       w' = restart w3 /\
       rf2xx_on w' = rf2xx_on w3 /\
       rf2xx_state w' = baseline w' /\
       (rf2xx_on w' <> 0 -> rf2xx_state w' = RF_LISTEN) /\
       (rf2xx_on w' = 0 -> rf2xx_state w' = RF_IDLE)) /\
  (rf2xx_wr_transmit fuel sched transmit_len w = None <->
   pll_wait fuel (fst te) (snd te) = None \/
   exists w2,
     pll_wait fuel (fst te) (snd te) = Some (PllReady, w2) /\
     rf2xx_state (run_events sched (tx_start w2)) = RF_TX).
Proof.
  intros Hst Hlen te.
  rewrite (rf2xx_wr_transmit_runs fuel sched transmit_len w Hst Hlen).
  set (flag := rf2xx_state_eqb (rf2xx_state w) RF_LISTEN) in *.
  set (wtx := set_rf2xx_state RF_TX w) in *.
  assert (Hbase : forall w0,
    rf2xx_on (restart w0) = rf2xx_on w0 /\
    rf2xx_state (restart w0) = baseline (restart w0) /\
    (rf2xx_on (restart w0) <> 0 -> rf2xx_state (restart w0) = RF_LISTEN) /\
    (rf2xx_on (restart w0) = 0 -> rf2xx_state (restart w0) = RF_IDLE)).
  { intro w0. destruct (restart_frame w0) as (Hon & _).
    split; [exact Hon | split; [apply restart_baseline | split]];
      intro H; rewrite Hon in H.
    - apply restart_on. exact H.
    - apply restart_off. exact H. }
  assert (Hw2 : forall v w2,
    pll_wait fuel (fst te) (snd te) = Some (v, w2) ->
    rf2xx_state w2 = RF_TX).
  { intros v w2 Hpll. apply pll_wait_state in Hpll. rewrite Hpll.
    subst te. rewrite tx_enter_state. reflexivity. }
  split.
  - intros ret w' H. apply tx_run_inv in H; [| reflexivity].
    fold te in H.
    destruct H as (v & w2 & Hpll &
      [(-> & -> & ->) | (-> & -> & w3 & Hwait & ->)]).
    + exists PllTimeout, w2, w2.
      split; [exact Hpll | split; [| split; [reflexivity | apply Hbase]]].
      split; [reflexivity | split; [reflexivity | exact (Hw2 _ _ Hpll)]].
    + exists PllReady, w2, w3.
      split; [exact Hpll | split; [| split; [reflexivity | apply Hbase]]].
      split; [reflexivity | split; [exact Hwait |]].
      apply (wait_tx_end_done sched (tx_start w2) w3); [| exact Hwait].
      cbn [tx_start rf2xx_state emit]. exact (Hw2 _ _ Hpll).
  - unfold tx_run. fold te.
    destruct te as [time w1] eqn:Ete. cbn [fst snd] in *.
    destruct (pll_wait fuel time w1) as [[[|] w2] |] eqn:Hpll.
    + assert (Htx : rf2xx_state (tx_start w2) = RF_TX).
      { cbn [tx_start rf2xx_state emit]. exact (Hw2 _ _ eq_refl). }
      pose proof (wait_tx_end_none_iff sched (tx_start w2) Htx) as Hiff.
      destruct (wait_tx_end sched (tx_start w2)) as [w3 |] eqn:Hwait.
      * split; [intro H; discriminate H |].
        intros [H | (w2' & Heq & Hspin)]; [discriminate H |].
        injection Heq as <-. apply Hiff in Hspin. discriminate Hspin.
      * split; [| reflexivity]. intros _. right. exists w2.
        split; [reflexivity | apply Hiff; reflexivity].
    + split; [intro H; discriminate H |].
      intros [H | (w2' & Heq & _)]; discriminate.
    + split; [intros _; left; reflexivity | reflexivity].
Qed.

End TransmitReturns.

Lemma transmit_returns_at_baseline_witness :
  rf2xx_state
    (tx_final (rf2xx_wr_transmit (P:=board) 1 [EvIrq] 3 listening_driver))
  = RF_LISTEN /\
  rf2xx_wr_transmit (P:=board) 1 [EvOn; EvOff] 3 listening_driver = None.
Proof.
  destruct (transmit_returns_at_baseline (P:=board) 1 [EvIrq] 3
              listening_driver (or_intror eq_refl) eq_refl)
    as [Hret _].
  destruct (transmit_returns_at_baseline (P:=board) 1 [EvOn; EvOff] 3
              listening_driver (or_intror eq_refl) eq_refl)
    as [_ Hnone].
  assert (E : rf2xx_wr_transmit (P:=board) 1 [EvIrq] 3 listening_driver
              = Some (RADIO_TX_OK,
                      tx_final (rf2xx_wr_transmit (P:=board) 1 [EvIrq] 3
                                  listening_driver)))
    by (vm_compute; reflexivity).
  split.
  - destruct (Hret _ _ E) as (v & w2 & w3 & _ & _ & _ & _ & _ & Hon & _).
    apply Hon. vm_compute. discriminate.
  - apply Hnone. right. eexists. split; [reflexivity |].
    vm_compute. reflexivity.
Defined.

(** C3, as first stated, fails.  On [deaf_board] the chip reaches PLL_ON
    at the first poll but the completion interrupt is lost.  A [transmit]
    of the prepared three bytes from Listening then returns for no number
    of polls and no schedule of interrupts and [on]/[off] calls: it neither
    reports TxError nor reaches [restart]. *)
Lemma transmit_lost_interrupt_never_returns :
  rf2xx_state listening_driver = RF_LISTEN /\
  tx_len listening_driver = 3 /\
  (exists w2,
     pll_wait (P:=deaf_board) 1
       (fst (tx_enter (P:=deaf_board) true
               (set_rf2xx_state RF_TX listening_driver)))
       (snd (tx_enter (P:=deaf_board) true
               (set_rf2xx_state RF_TX listening_driver)))
     = Some (PllReady, w2)) /\
  ~ (exists fuel sched ret w',
       rf2xx_wr_transmit (P:=deaf_board) fuel sched 3 listening_driver
       = Some (ret, w')).
Proof.
  split; [reflexivity | split; [reflexivity | split]].
  - eexists. reflexivity.
  - intros (fuel & sched & ret & w' & H).
    rewrite (rf2xx_wr_transmit_runs (P:=deaf_board) fuel sched 3
               listening_driver (or_intror eq_refl) eq_refl) in H.
    apply (tx_run_inv (P:=deaf_board)) in H; [| reflexivity].
    destruct H as (v & w2 & Hpll &
      [(-> & _ & _) | (-> & _ & w3 & Hwait & _)]).
    + destruct fuel as [| fuel]; [discriminate Hpll |].
      assert (Hready : forall k time0 w0,
        time0 = fst (tx_enter (P:=deaf_board) true
                       (set_rf2xx_state RF_TX listening_driver)) ->
        w0 = snd (tx_enter (P:=deaf_board) true
                    (set_rf2xx_state RF_TX listening_driver)) ->
        pll_wait (P:=deaf_board) (S k) time0 w0
        = Some (PllReady, emit GetStatus w0)).
      { intros k time0 w0 -> ->. reflexivity. }
      pose proof (eq_trans (eq_sym (Hready fuel _ _ eq_refl eq_refl)) Hpll)
        as Hc.
      discriminate Hc.
    + assert (Hst : rf2xx_state (tx_start w2) = RF_TX).
      { apply (pll_wait_state (P:=deaf_board)) in Hpll.
        cbn [tx_start rf2xx_state emit]. rewrite Hpll.
        apply (tx_enter_state (P:=deaf_board)). }
      rewrite (wait_tx_end_lost_interrupt (P:=deaf_board) sched
                 (tx_start w2) (fun t => eq_refl) Hst) in Hwait.
      discriminate Hwait.
Qed.
